(** * iso8601duration: a shallow embedding of duration.go

    The Go package parses, prints and resolves ISO8601-style durations.
    The repository code is [FromString], [Duration_String], [HasTimePart],
    [ToEstimatedDuration] and [ToDuration]; it leans on four pieces of the
    Go standard library, each modelled below as far as the package uses it:
    [strconv.Atoi] and the decimal printing of [fmt], the [regexp] engine
    (leftmost-first matching with capture groups), [text/template]
    execution, and the [time] package.

    Go's [int] is taken to be 64 bits wide (amd64, arm64); [time.Duration]
    is an [int64] count of nanoseconds on every platform. *)

From Stdlib Require Import ZArith String Ascii List Bool Lia.
Import ListNotations.

Local Open Scope string_scope.
Local Open Scope Z_scope.

Set Warnings "-register-all".

(* ================================================================== *)
(** ** Machine integers *)

Module Mach.

Definition maxInt64 : Z := 9223372036854775807.
Definition minInt64 : Z := -9223372036854775808.
Definition two64 : Z := 18446744073709551616.

(** Two's-complement reduction of a mathematical integer to [int64]. *)
Definition wrap64 (z : Z) : Z := (z - minInt64) mod two64 + minInt64.

Definition in_int64 (z : Z) : Prop := minInt64 <= z <= maxInt64.

(** Go's [int] on a 64-bit platform. *)
Definition maxInt : Z := maxInt64.
Definition wrapInt (z : Z) : Z := wrap64 z.

End Mach.

(* ================================================================== *)
(** ** Results of fallible Go code

    A Go function returning [(T, error)] either yields a value, yields an
    error, or panics. *)

Inductive NumErrKind : Type := ErrRange | ErrSyntax.

(** [*strconv.NumError]. *)
Record NumError : Type := mkNumError
  { neFunc : string; neNum : string; neErr : NumErrKind }.

Inductive error : Type :=
| ErrBadFormat                          (* errors.New("bad format string") *)
| ErrNum (e : NumError)                 (* the error of strconv.Atoi *)
| ErrUnknownField (name : string).      (* errors.New("unknown field ...") *)

Inductive result (A : Type) : Type :=
| Ok (a : A)
| Err (e : error)
| Panic (msg : string).

Arguments Ok {A} a.
Arguments Err {A} e.
Arguments Panic {A} msg.

(* ================================================================== *)
(** ** strconv and fmt: decimal integers *)

Module Strconv.

Definition is_digit (c : ascii) : bool :=
  let n := N_of_ascii c in (48 <=? n)%N && (n <=? 57)%N.

Definition digit_val (c : ascii) : Z := Z.of_N (N_of_ascii c) - 48.

Definition digit_char (d : Z) : ascii := ascii_of_N (Z.to_N (48 + d)).

Fixpoint all_digits (s : string) : bool :=
  match s with
  | EmptyString => true
  | String c s' => is_digit c && all_digits s'
  end.

(** The value of a run of decimal digits, most significant first. *)
Fixpoint digits_value (s : string) (acc : Z) : Z :=
  match s with
  | EmptyString => acc
  | String c s' => digits_value s' (acc * 10 + digit_val c)
  end.

(** [strconv.Atoi] for a 64-bit [int]: an optional sign, then one or
    more decimal digits; a value outside [int] is a range error. *)
Definition Atoi (s : string) : Z + NumError :=
  let '(neg, body) :=
    match s with
    | String "-"%char b => (true, b)
    | String "+"%char b => (false, b)
    | _ => (false, s)
    end in
  if (body =? "")%string || negb (all_digits body) then
    inr (mkNumError "Atoi" s ErrSyntax)
  else
    let v := digits_value body 0 in
    if neg then
      if v <=? Mach.maxInt + 1 then inl (- v)
      else inr (mkNumError "Atoi" s ErrRange)
    else
      if v <=? Mach.maxInt then inl v
      else inr (mkNumError "Atoi" s ErrRange).

(** The digit loop of [fmt]'s integer formatting: digits are produced
    from the least significant end into [acc]. *)
Fixpoint fmt_digits (fuel : nat) (u : Z) (acc : string) : string :=
  match fuel with
  | O => acc
  | S f =>
      if u <? 10 then String (digit_char u) acc
      else fmt_digits f (u / 10) (String (digit_char (u mod 10)) acc)
  end.

(** A non-negative [u] has at most [log2 u + 1] decimal digits. *)
Definition fmt_unsigned (u : Z) : string :=
  fmt_digits (S (Z.to_nat (Z.log2 u))) u "".

(** How [fmt] prints an [int] under the verb [%v]. *)
Definition Itoa (z : Z) : string :=
  if z <? 0 then String "-"%char (fmt_unsigned (- z)) else fmt_unsigned z.

End Strconv.

(* ================================================================== *)
(** ** regexp: leftmost-first matching with capture groups

    The fragment of the RE2 syntax that the pattern [full] is written in:
    literals, [\d+], concatenation, the greedy [?], and capture groups.
    Matching is by backtracking with a continuation, which is the
    leftmost-first (Perl-like) discipline that Go's [regexp] follows.
    The pattern is made of ASCII characters only, so matching byte by
    byte finds the same match as matching rune by rune. *)

Module Regexp.

Inductive regex : Type :=
| Eps
| Lit (c : ascii)
| Plus (cls : ascii -> bool)                  (* [cls]+, greedy *)
| Cat (r1 r2 : regex)
| Opt (r : regex)                             (* r?, greedy *)
| Group (idx : nat) (name : string) (r : regex).

Fixpoint cat_all (rs : list regex) : regex :=
  match rs with
  | [] => Eps
  | r :: rs' => Cat r (cat_all rs')
  end.

(** The capture groups of a pattern, in the order of their opening
    parentheses. *)
Fixpoint groups (r : regex) : list (nat * string) :=
  match r with
  | Eps | Lit _ | Plus _ => []
  | Cat r1 r2 => groups r1 ++ groups r2
  | Opt r' => groups r'
  | Group i n r' => (i, n) :: groups r'
  end.

Definition NumSubexp (r : regex) : nat := List.length (groups r).

(** [re.SubexpNames()]: entry 0 is the whole match and has no name. *)
Definition SubexpNames (r : regex) : list string :=
  "" :: map snd (groups r).

(** Capture registers: [None] is a group that took no part. *)
Definition caps : Type := list (option string).

Fixpoint set_cap (i : nat) (v : string) (cs : caps) : caps :=
  match cs, i with
  | [], _ => []
  | _ :: cs', O => Some v :: cs'
  | c :: cs', S i' => c :: set_cap i' v cs'
  end.

(** A continuation receives the text just consumed, the input that is
    left, and the capture registers. *)
Definition cont : Type := string -> string -> caps -> option caps.

Fixpoint plus_class (cls : ascii -> bool) (s : string)
         (k : string -> string -> option caps) : option caps :=
  match s with
  | EmptyString => None
  | String c s' =>
      if cls c then
        match plus_class cls s' (fun cs rest => k (String c cs) rest) with
        | Some r => Some r
        | None => k (String c EmptyString) s'
        end
      else None
  end.

Fixpoint m (r : regex) (s : string) (cs : caps) (k : cont) : option caps :=
  match r with
  | Eps => k "" s cs
  | Lit c =>
      match s with
      | String c' s' =>
          if Ascii.eqb c c' then k (String c EmptyString) s' cs else None
      | EmptyString => None
      end
  | Plus cls => plus_class cls s (fun t rest => k t rest cs)
  | Cat r1 r2 =>
      m r1 s cs (fun t1 s1 cs1 =>
        m r2 s1 cs1 (fun t2 s2 cs2 => k (t1 ++ t2) s2 cs2))
  | Opt r' =>
      match m r' s cs k with
      | Some x => Some x
      | None => k "" s cs
      end
  | Group i _ r' =>
      m r' s cs (fun t s' cs' => k t s' (set_cap i t cs'))
  end.

(** A match that starts at the first character of [s]. *)
Definition match_here (r : regex) (s : string) : option caps :=
  m r s (repeat None (S (NumSubexp r)))
    (fun t _ cs => Some (set_cap 0 t cs)).

(** The leftmost match, with the offset where it starts. *)
Fixpoint find (r : regex) (s : string) (off : nat) : option (nat * caps) :=
  match match_here r s with
  | Some cs => Some (off, cs)
  | None =>
      match s with
      | EmptyString => None
      | String _ s' => find r s' (S off)
      end
  end.

Definition MatchString (r : regex) (s : string) : bool :=
  match find r s 0 with Some _ => true | None => false end.

Definition cap_text (c : option string) : string :=
  match c with Some t => t | None => "" end.

(** [re.FindStringSubmatch]: the texts of the leftmost match and of its
    groups, [""] for a group that took no part; [nil] without a match. *)
Definition FindStringSubmatch (r : regex) (s : string) : list string :=
  match find r s 0 with
  | Some (_, cs) => map cap_text cs
  | None => []
  end.

(** Offset of the leftmost match ([re.FindStringIndex], start only). *)
Definition FindStringStart (r : regex) (s : string) : option nat :=
  option_map fst (find r s 0).

End Regexp.

(* ================================================================== *)
(** ** text/template: the actions the template [tmpl] is written in

    Plain text, [{{.Name}}] and [{{if .Name}}...{{end}}].  The data the
    template runs on answers a name with an integer or a boolean, or not
    at all; evaluating a name the data does not have is the execution
    error that [tmpl.Execute] returns. *)

Module Template.

Inductive value : Type :=
| VInt (z : Z)
| VBool (b : bool).

Inductive node : Type :=
| Text (s : string)
| Field (name : string)                        (* {{.Name}} *)
| If (name : string) (body : list node).       (* {{if .Name}}body{{end}} *)

(** The truth of a value in [{{if}}]: a number is true when non-zero. *)
Definition truth (v : value) : bool :=
  match v with
  | VInt z => negb (z =? 0)
  | VBool b => b
  end.

(** The printed form of a value, as [fmt.Fprint] gives it. *)
Definition print (v : value) : string :=
  match v with
  | VInt z => Strconv.Itoa z
  | VBool true => "true"
  | VBool false => "false"
  end.

(** [Execute] appends to the buffer [buf]; [inr name] is the error
    "can't evaluate field name". *)
Fixpoint exec_node (dot : string -> option value) (n : node)
         (buf : string) : string + string :=
  match n with
  | Text s => inl (buf ++ s)
  | Field name =>
      match dot name with
      | Some v => inl (buf ++ print v)
      | None => inr name
      end
  | If name body =>
      match dot name with
      | Some v =>
          if truth v then
            (fix exec_list (ns : list node) (b : string) : string + string :=
               match ns with
               | [] => inl b
               | n' :: ns' =>
                   match exec_node dot n' b with
                   | inl b' => exec_list ns' b'
                   | inr e => inr e
                   end
               end) body buf
          else inl buf
      | None => inr name
      end
  end.

Fixpoint exec_list (dot : string -> option value) (ns : list node)
         (buf : string) : string + string :=
  match ns with
  | [] => inl buf
  | n :: ns' =>
      match exec_node dot n buf with
      | inl buf' => exec_list dot ns' buf'
      | inr e => inr e
      end
  end.

Definition Execute (t : list node) (dot : string -> option value)
  : string + string :=
  exec_list dot t "".

End Template.

(* ================================================================== *)
(** ** The package: data, pattern and template *)

Record Duration : Type := mkDuration
  { Years : Z; Months : Z; Weeks : Z; Days : Z;
    Hours : Z; Minutes : Z; Seconds : Z }.

(** [&Duration{}]. *)
Definition zeroDuration : Duration := mkDuration 0 0 0 0 0 0 0.

(** [d.HasTimePart()]. *)
Definition HasTimePart (d : Duration) : bool :=
  negb (Hours d =? 0) || negb (Minutes d =? 0) || negb (Seconds d =? 0).

(** What the template finds under a name when it runs on a [*Duration]:
    the seven fields and the method [HasTimePart]. *)
Definition dot_of (d : Duration) (name : string) : option Template.value :=
  if (name =? "Years")%string then Some (Template.VInt (Years d))
  else if (name =? "Months")%string then Some (Template.VInt (Months d))
  else if (name =? "Weeks")%string then Some (Template.VInt (Weeks d))
  else if (name =? "Days")%string then Some (Template.VInt (Days d))
  else if (name =? "Hours")%string then Some (Template.VInt (Hours d))
  else if (name =? "Minutes")%string then Some (Template.VInt (Minutes d))
  else if (name =? "Seconds")%string then Some (Template.VInt (Seconds d))
  else if (name =? "HasTimePart")%string
       then Some (Template.VBool (HasTimePart d))
  else None.

(** [tmpl], lines 18-29. *)
Definition tmpl : list Template.node :=
  let If := Template.If in
  let Field := Template.Field in
  let Text := Template.Text in
  [ Text "P";
    If "Years" [Field "Years"; Text "Y"];
    If "Months" [Field "Months"; Text "M"];
    If "Weeks" [Field "Weeks"; Text "W"];
    If "Days" [Field "Days"; Text "D"];
    If "HasTimePart" [Text "T"];
    If "Hours" [Field "Hours"; Text "H"];
    If "Minutes" [Field "Minutes"; Text "M"];
    If "Seconds" [Field "Seconds"; Text "S"] ].

(** [full], line 31:
    P((?P<year>\d+)Y)?((?P<month>\d+)M)?((?P<week>\d+)W)?((?P<day>\d+)D)?
    (T((?P<hour>\d+)H)?((?P<minute>\d+)M)?((?P<second>\d+)S)?)? *)
Definition full : Regexp.regex :=
  let digits := Regexp.Plus Strconv.is_digit in
  let seq := Regexp.cat_all in
  let Opt := Regexp.Opt in
  seq [ Regexp.Lit "P";
        Opt (Regexp.Group 1 ""
               (seq [Regexp.Group 2 "year" digits; Regexp.Lit "Y"]));
        Opt (Regexp.Group 3 ""
               (seq [Regexp.Group 4 "month" digits; Regexp.Lit "M"]));
        Opt (Regexp.Group 5 ""
               (seq [Regexp.Group 6 "week" digits; Regexp.Lit "W"]));
        Opt (Regexp.Group 7 ""
               (seq [Regexp.Group 8 "day" digits; Regexp.Lit "D"]));
        Opt (Regexp.Group 9 ""
               (seq [ Regexp.Lit "T";
                      Opt (Regexp.Group 10 ""
                             (seq [Regexp.Group 11 "hour" digits;
                                   Regexp.Lit "H"]));
                      Opt (Regexp.Group 12 ""
                             (seq [Regexp.Group 13 "minute" digits;
                                   Regexp.Lit "M"]));
                      Opt (Regexp.Group 14 ""
                             (seq [Regexp.Group 15 "second" digits;
                                   Regexp.Lit "S"])) ])) ].

(* ================================================================== *)
(** ** FromString *)

(** The [switch name] of lines 69-86; [None] is its [default] branch. *)
Definition assign (name : string) (val : Z) (d : Duration) : option Duration :=
  let '(mkDuration y mo w dy h mi s) := d in
  if (name =? "year")%string then Some (mkDuration val mo w dy h mi s)
  else if (name =? "month")%string then Some (mkDuration y val w dy h mi s)
  else if (name =? "week")%string then Some (mkDuration y mo val dy h mi s)
  else if (name =? "day")%string then Some (mkDuration y mo w val h mi s)
  else if (name =? "hour")%string then Some (mkDuration y mo w dy val mi s)
  else if (name =? "minute")%string then Some (mkDuration y mo w dy h val s)
  else if (name =? "second")%string then Some (mkDuration y mo w dy h mi val)
  else None.

(** [for i, name := range names]: the pairs the loop runs over. *)
Fixpoint enumerate (i : nat) (names : list string) : list (nat * string) :=
  match names with
  | [] => []
  | n :: ns => (i, n) :: enumerate (S i) ns
  end.

(** The loop of lines 59-87 over the remaining [(i, name)] pairs. *)
Fixpoint fill (names : list (nat * string)) (match_ : list string)
         (d : Duration) : result Duration :=
  match names with
  | [] => Ok d
  | (i, name) :: rest =>
      match nth_error match_ i with
      | None => Panic "index out of range"
      | Some part =>
          if (i =? 0)%nat || (name =? "")%string || (part =? "")%string
          then fill rest match_ d
          else
            match Strconv.Atoi part with
            | inr err => Err (ErrNum err)
            | inl val =>
                match assign name val d with
                | Some d' => fill rest match_ d'
                | None => Err (ErrUnknownField name)
                end
            end
      end
  end.

Definition FromString (dur : string) : result Duration :=
  if Regexp.MatchString full dur then
    let match_ := Regexp.FindStringSubmatch full dur in
    let re := full in
    fill (enumerate 0 (Regexp.SubexpNames re)) match_ zeroDuration
  else
    Err ErrBadFormat.

(* ================================================================== *)
(** ** String *)

(** [d.String()]: the template runs on [d]; an execution error panics. *)
Definition Duration_String (d : Duration) : result string :=
  match Template.Execute tmpl (dot_of d) with
  | inl s => Ok s
  | inr e => Panic ("can't evaluate field " ++ e)
  end.

(* ================================================================== *)
(** ** time: durations, instants, calendar arithmetic

    A model of the part of Go's [time] package that the resolvers call.
    An instant is a count of seconds since the Unix epoch with a
    nanosecond fraction, an optional monotonic reading and a location; a
    location is what [lookup] answers: the UTC offset in force at an
    instant and the bounds of the period it is in force.  The calendar is
    the proleptic Gregorian one.  Years, days and seconds are unbounded
    integers here: the overflow of the library's own counters, which
    dates and day counts of ordinary size never reach, is outside the
    model. *)

Module GoTime.

(** [time.Duration] arithmetic is [int64] arithmetic. *)
Definition mulD (a b : Z) : Z := Mach.wrap64 (a * b).
Definition addD (a b : Z) : Z := Mach.wrap64 (a + b).

(** The conversion [time.Duration(n)] of an [int]. *)
Definition toDuration (n : Z) : Z := Mach.wrap64 n.

Definition Nanosecond : Z := 1.
Definition Microsecond : Z := 1000 * Nanosecond.
Definition Millisecond : Z := 1000 * Microsecond.
Definition Second : Z := 1000 * Millisecond.
Definition Minute : Z := 60 * Second.
Definition Hour : Z := 60 * Minute.

Definition minDuration : Z := Mach.minInt64.
Definition maxDuration : Z := Mach.maxInt64.

(** A duration that does not fit is replaced by the nearest that does. *)
Definition saturate (z : Z) : Z :=
  if z <? minDuration then minDuration
  else if maxDuration <? z then maxDuration
  else z.

(** [lookup sec] is [(offset, start, end)]: the offset in seconds east
    of UTC in force at [sec], in force from [start] up to [end]. *)
Record Location : Type := mkLocation { lookup : Z -> Z * Z * Z }.

Definition alpha : Z := Mach.minInt64.
Definition omega : Z := Mach.maxInt64.

Definition FixedZone (offset : Z) : Location :=
  mkLocation (fun _ => (offset, alpha, omega)).

Definition UTC : Location := FixedZone 0.

Record Time : Type := mkTime
  { unixSec : Z;            (* seconds since 1970-01-01T00:00:00Z *)
    nsec : Z;               (* nanoseconds within the second *)
    mono : option Z;        (* monotonic clock reading, if any *)
    loc : Location }.

Definition secondsPerDay : Z := 86400.

Definition isLeap (year : Z) : bool :=
  (year mod 4 =? 0) && (negb (year mod 100 =? 0) || (year mod 400 =? 0)).

(** Days before the first of each month in a non-leap year. *)
Definition daysBefore : list Z :=
  [0; 31; 59; 90; 120; 151; 181; 212; 243; 273; 304; 334; 365].

Definition daysBeforeMonth (i : Z) : Z := nth (Z.to_nat i) daysBefore 0.

(** Days from 1970-01-01 to the first of January of [year]. *)
Definition daysSinceEpoch (year : Z) : Z :=
  let y := year - 1 in
  365 * y + y / 4 - y / 100 + y / 400 - 719162.

(** [norm hi lo base]: carry [lo] into [hi] so that [0 <= lo < base]. *)
Definition norm (hi lo base : Z) : Z * Z := (hi + lo / base, lo mod base).

(** The civil date of a day number within a 400-year cycle that starts
    on the first of January of a year [1 mod 400]: the year counts from
    1, [d] from 0 to 146096. *)
Definition dateInCycle (d : Z) : Z * Z * Z :=
  (* Cut off 100-year cycles; the last has one more leap day. *)
  let n := d / 36524 in
  let n := n - n / 4 in
  let y := 100 * n in
  let d := d - 36524 * n in
  (* Cut off 4-year cycles. *)
  let n := d / 1461 in
  let y := y + 4 * n in
  let d := d - 1461 * n in
  (* Cut off years within a 4-year cycle; the last is a leap year. *)
  let n := d / 365 in
  let n := n - n / 4 in
  let y := y + n in
  let d := d - 365 * n in
  let year := y + 1 in
  let day := d in
  if isLeap year && (day =? 31 + 29 - 1) then (year, 2, 29)
  else
    let day := if isLeap year && (31 + 29 - 1 <? day) then day - 1 else day in
    (* Estimate the month as if every month had 31 days, then adjust. *)
    let month := day / 31 in
    let end_ := daysBeforeMonth (month + 1) in
    let '(month, begin) :=
      if end_ <=? day then (month + 1, end_)
      else (month, daysBeforeMonth month) in
    (year, month + 1, day - begin + 1).

(** Year, month and day of a day number counted from 1970-01-01. *)
Definition civil (days : Z) : Z * Z * Z :=
  let d := days + 719162 in
  let '(y, mo, dd) := dateInCycle (d mod 146097) in
  (400 * (d / 146097) + y, mo, dd).

(** Seconds since the epoch on the clock of the location of [t]. *)
Definition localSec (t : Time) : Z :=
  let '(offset, _, _) := lookup (loc t) (unixSec t) in
  unixSec t + offset.

(** [t.Date()]. *)
Definition DateOf (t : Time) : Z * Z * Z :=
  civil (localSec t / secondsPerDay).

(** [t.Clock()]. *)
Definition Clock (t : Time) : Z * Z * Z :=
  let s := localSec t mod secondsPerDay in
  (s / 3600, (s mod 3600) / 60, s mod 60).

(** [time.Date(year, month, day, hour, min, sec, nsec, loc)]. *)
Definition Date (year month day hour min sec ns : Z) (l : Location) : Time :=
  let '(year, m) := norm year (month - 1) 12 in
  let month := m + 1 in
  let '(sec, ns) := norm sec ns 1000000000 in
  let '(min, sec) := norm min sec 60 in
  let '(hour, min) := norm hour min 60 in
  let '(day, hour) := norm day hour 24 in
  let d := daysSinceEpoch year + daysBeforeMonth (month - 1) in
  let d := if isLeap year && (3 <=? month) then d + 1 else d in
  let d := d + (day - 1) in
  let unix := d * secondsPerDay + (hour * 3600 + min * 60 + sec) in
  (* Find the offset for the wall-clock reading and go back to UTC. *)
  let '(offset, start, end_) := lookup l unix in
  let unix :=
    if offset =? 0 then unix
    else
      let utc := unix - offset in
      let offset :=
        if (utc <? start) || (end_ <=? utc)
        then (let '(o, _, _) := lookup l utc in o)
        else offset in
      unix - offset in
  mkTime unix ns None l.

(** [t.AddDate(years, months, days)]. *)
Definition AddDate (t : Time) (years months days : Z) : Time :=
  let '(year, month, day) := DateOf t in
  let '(hour, min, sec) := Clock t in
  Date (year + years) (month + months) (day + days) hour min sec
       (nsec t) (loc t).

(** [t.Add(d)].  A monotonic reading follows while it stays in range;
    the library drops it as well when the wall clock leaves the years
    1885 to 2157, which is not modelled: a reading only counts in [Sub],
    and only when both instants carry one. *)
Definition Add (t : Time) (d : Z) : Time :=
  let n := nsec t + d in
  mkTime (unixSec t + n / 1000000000) (n mod 1000000000)
         (match mono t with
          | Some r =>
              if (Mach.minInt64 <=? r + d) && (r + d <=? Mach.maxInt64)
              then Some (r + d) else None
          | None => None
          end)
         (loc t).

(** The exact number of nanoseconds from [u] to [t]. *)
Definition elapsed (t u : Time) : Z :=
  (unixSec t - unixSec u) * 1000000000 + (nsec t - nsec u).

(** [t.Sub(u)]: by the monotonic readings when both instants carry
    one, by the wall clock otherwise; saturating. *)
Definition Sub (t u : Time) : Z :=
  match mono t, mono u with
  | Some rt, Some ru => saturate (rt - ru)
  | _, _ => saturate (elapsed t u)
  end.

End GoTime.

(* ================================================================== *)
(** ** The resolvers *)

Definition ToEstimatedDuration (d : Duration) : Z :=
  let day := GoTime.mulD GoTime.Hour 24 in
  let month := GoTime.mulD day 30 in
  let year := GoTime.mulD day 365 in
  let tot := 0 in
  let tot := GoTime.addD tot (GoTime.mulD year (GoTime.toDuration (Years d))) in
  let tot := GoTime.addD tot (GoTime.mulD month (GoTime.toDuration (Months d))) in
  let tot := GoTime.addD tot
               (GoTime.mulD (GoTime.mulD day 7) (GoTime.toDuration (Weeks d))) in
  let tot := GoTime.addD tot (GoTime.mulD day (GoTime.toDuration (Days d))) in
  let tot := GoTime.addD tot
               (GoTime.mulD GoTime.Hour (GoTime.toDuration (Hours d))) in
  let tot := GoTime.addD tot
               (GoTime.mulD GoTime.Minute (GoTime.toDuration (Minutes d))) in
  let tot := GoTime.addD tot
               (GoTime.mulD GoTime.Second (GoTime.toDuration (Seconds d))) in
  tot.

(** The instant [ToDuration] aims at, lines 138-144. *)
Definition targetTime (d : Duration) (from : GoTime.Time) : GoTime.Time :=
  let t := GoTime.AddDate from (Years d) (Months d) 0 in
  let t := GoTime.AddDate t 0 0 (Mach.wrapInt (7 * Weeks d)) in
  let t := GoTime.AddDate t 0 0 (Days d) in
  let t := GoTime.Add t (GoTime.mulD (GoTime.toDuration (Hours d)) GoTime.Hour) in
  let t := GoTime.Add t
             (GoTime.mulD (GoTime.toDuration (Minutes d)) GoTime.Minute) in
  let t := GoTime.Add t
             (GoTime.mulD (GoTime.toDuration (Seconds d)) GoTime.Second) in
  t.

Definition ToDuration (d : Duration) (from : GoTime.Time) : Z :=
  GoTime.Sub (targetTime d from) from.

(* ================================================================== *)
(** ** What the specification says, in its own words

    The definitions of this part follow the prose of the specification;
    the theorems further down compare them with the code above. *)

(** The grammar [P [nY] [nM] [nW] [nD] [T [nH] [nM] [nS]]]: every unit is
    an optional digit run, the time part is optional as a whole. *)
Record TimeParts : Type := mkTimeParts
  { hourRun : option string; minuteRun : option string;
    secondRun : option string }.

Record Parts : Type := mkParts
  { yearRun : option string; monthRun : option string;
    weekRun : option string; dayRun : option string;
    timeParts : option TimeParts }.

Definition unit_text (run : option string) (letter : ascii) : string :=
  match run with
  | Some n => n ++ String letter ""
  | None => ""
  end.

Definition time_text (t : option TimeParts) : string :=
  match t with
  | Some t =>
      "T" ++ unit_text (hourRun t) "H" ++ unit_text (minuteRun t) "M"
          ++ unit_text (secondRun t) "S"
  | None => ""
  end.

(** The word of the grammar with the given digit runs. *)
Definition render (p : Parts) : string :=
  "P" ++ unit_text (yearRun p) "Y" ++ unit_text (monthRun p) "M"
      ++ unit_text (weekRun p) "W" ++ unit_text (dayRun p) "D"
      ++ time_text (timeParts p).

(** A digit run is one or more decimal digits. *)
Definition run_ok (run : option string) : bool :=
  match run with
  | Some n => negb (n =? "")%string && Strconv.all_digits n
  | None => true
  end.

Definition time_ok (t : option TimeParts) : bool :=
  match t with
  | Some t => run_ok (hourRun t) && run_ok (minuteRun t) && run_ok (secondRun t)
  | None => true
  end.

Definition parts_ok (p : Parts) : bool :=
  run_ok (yearRun p) && run_ok (monthRun p) && run_ok (weekRun p)
  && run_ok (dayRun p) && time_ok (timeParts p).

(** The number a unit stands for: its digit run read in base ten, zero
    when the unit is absent. *)
Definition run_value (run : option string) : Z :=
  match run with
  | Some n => Strconv.digits_value n 0
  | None => 0
  end.

Definition time_run (f : TimeParts -> option string) (t : option TimeParts)
  : option string :=
  match t with
  | Some t => f t
  | None => None
  end.

Definition fields_of (p : Parts) : Duration :=
  mkDuration (run_value (yearRun p)) (run_value (monthRun p))
             (run_value (weekRun p)) (run_value (dayRun p))
             (run_value (time_run hourRun (timeParts p)))
             (run_value (time_run minuteRun (timeParts p)))
             (run_value (time_run secondRun (timeParts p))).

(** Every digit run is representable as an [int]. *)
Definition parts_fit (p : Parts) : bool :=
  let d := fields_of p in
  (Years d <=? Mach.maxInt) && (Months d <=? Mach.maxInt)
  && (Weeks d <=? Mach.maxInt) && (Days d <=? Mach.maxInt)
  && (Hours d <=? Mach.maxInt) && (Minutes d <=? Mach.maxInt)
  && (Seconds d <=? Mach.maxInt).

(** Text after a word of the grammar that cannot be taken for more of
    it: it does not start with a digit, nor with [T] when the word has no
    time part. *)
Definition trailing_ok (p : Parts) (post : string) : bool :=
  match post with
  | EmptyString => true
  | String c _ =>
      negb (Strconv.is_digit c)
      && match timeParts p with
         | Some _ => true
         | None => negb (Ascii.eqb c "T")
         end
  end.

(** No occurrence of the character [P]. *)
Fixpoint no_P (s : string) : bool :=
  match s with
  | EmptyString => true
  | String c s' => negb (Ascii.eqb c "P") && no_P s'
  end.

(** The formatter of section 4.2: a unit is printed as value and letter
    when its field is not zero, and not at all otherwise. *)
Definition unit_out (v : Z) (letter : string) : string :=
  if v =? 0 then "" else Strconv.Itoa v ++ letter.

Definition format_spec (d : Duration) : string :=
  "P" ++ unit_out (Years d) "Y" ++ unit_out (Months d) "M"
      ++ unit_out (Weeks d) "W" ++ unit_out (Days d) "D"
      ++ (if negb (Hours d =? 0) || negb (Minutes d =? 0)
             || negb (Seconds d =? 0) then "T" else "")
      ++ unit_out (Hours d) "H" ++ unit_out (Minutes d) "M"
      ++ unit_out (Seconds d) "S".

(** The fixed table of section 4.3, in nanoseconds, without any bound on
    the size of the sum. *)
Definition estimated_exact (d : Duration) : Z :=
  Years d * 365 * (24 * GoTime.Hour) + Months d * 30 * (24 * GoTime.Hour)
  + Weeks d * 7 * (24 * GoTime.Hour) + Days d * (24 * GoTime.Hour)
  + Hours d * GoTime.Hour + Minutes d * GoTime.Minute
  + Seconds d * GoTime.Second.

(** The instant of section 4.4: years and months in one calendar step,
    then [7 * weeks + days] calendar days, then the exact increments. *)
Definition spec_target (d : Duration) (from : GoTime.Time) : GoTime.Time :=
  let t := GoTime.AddDate from (Years d) (Months d) 0 in
  let t := GoTime.AddDate t 0 0 (7 * Weeks d + Days d) in
  let t := GoTime.Add t (Hours d * GoTime.Hour) in
  let t := GoTime.Add t (Minutes d * GoTime.Minute) in
  GoTime.Add t (Seconds d * GoTime.Second).

(** The same with the calendar days added as the code adds them: the
    weeks first, the days after. *)
Definition stepwise_target (d : Duration) (from : GoTime.Time) : GoTime.Time :=
  let t := GoTime.AddDate from (Years d) (Months d) 0 in
  let t := GoTime.AddDate t 0 0 (7 * Weeks d) in
  let t := GoTime.AddDate t 0 0 (Days d) in
  let t := GoTime.Add t (Hours d * GoTime.Hour) in
  let t := GoTime.Add t (Minutes d * GoTime.Minute) in
  GoTime.Add t (Seconds d * GoTime.Second).

(** A location whose offset never changes: UTC, [time.FixedZone]. *)
Definition fixed_offset (l : GoTime.Location) : Prop :=
  exists o, forall sec,
    GoTime.lookup l sec = (o, GoTime.alpha, GoTime.omega).

(** An instant as the library builds it: the nanoseconds are within the
    second. *)
Definition time_ok_ns (t : GoTime.Time) : Prop :=
  0 <= GoTime.nsec t < 1000000000.

Definition nonneg (d : Duration) : Prop :=
  0 <= Years d /\ 0 <= Months d /\ 0 <= Weeks d /\ 0 <= Days d /\
  0 <= Hours d /\ 0 <= Minutes d /\ 0 <= Seconds d.

(** Every field is a value of Go's [int]. *)
Definition int_fields (d : Duration) : Prop :=
  Mach.in_int64 (Years d) /\ Mach.in_int64 (Months d) /\
  Mach.in_int64 (Weeks d) /\ Mach.in_int64 (Days d) /\
  Mach.in_int64 (Hours d) /\ Mach.in_int64 (Minutes d) /\
  Mach.in_int64 (Seconds d).

(** At most one field of the date group and at most one of the time
    group is not zero. *)
Definition count_nonzero (l : list Z) : nat :=
  List.length (filter (fun z => negb (z =? 0)) l).

Definition one_per_group (d : Duration) : Prop :=
  (count_nonzero [Years d; Months d; Weeks d; Days d] <= 1)%nat /\
  (count_nonzero [Hours d; Minutes d; Seconds d] <= 1)%nat.

(* ================================================================== *)
(** ** Scanning a digit run and its unit letter

    What the pattern [(\d+)L] finds at the head of a string when [L] is
    not a digit: the digit run and the text after the letter. *)

Fixpoint scan (l : ascii) (s : string) : option (string * string) :=
  match s with
  | EmptyString => None
  | String c s' =>
      if Strconv.is_digit c then
        match scan l s' with
        | Some (ds, r) => Some (String c ds, r)
        | None =>
            match s' with
            | String c2 r2 =>
                if Ascii.eqb l c2 then Some (String c EmptyString, r2)
                else None
            | EmptyString => None
            end
        end
      else None
  end.

(** [((?P<name>\d+)L)?] as the pattern [full] writes it. *)
Definition unit_re (i j : nat) (name : string) (l : ascii) : Regexp.regex :=
  Regexp.Opt (Regexp.Group i ""
    (Regexp.cat_all [Regexp.Group j name (Regexp.Plus Strconv.is_digit);
                     Regexp.Lit l])).

(** The registers a matched unit sets. *)
Definition set_unit (i j : nat) (l : ascii) (run : option string)
           (cs : Regexp.caps) : Regexp.caps :=
  match run with
  | Some ds =>
      Regexp.set_cap i (ds ++ String l "") (Regexp.set_cap j ds cs)
  | None => cs
  end.

(** A continuation that never fails. *)
Definition total (k : Regexp.cont) : Prop :=
  forall t s cs, k t s cs <> None.

(** Patterns that match at every position: built from [?] alone. *)
Fixpoint always (r : Regexp.regex) : bool :=
  match r with
  | Regexp.Eps => true
  | Regexp.Opt _ => true
  | Regexp.Cat a b => always a && always b
  | Regexp.Group _ _ r' => always r'
  | _ => false
  end.

(** The registers after [full] has matched the word [render p]. *)
Definition caps_of (p : Parts) : Regexp.caps :=
  let u (run : option string) (l : ascii) :=
    match run with Some ds => Some (ds ++ String l "") | None => None end in
  let t := timeParts p in
  [ Some (render p);
    u (yearRun p) "Y"%char; yearRun p;
    u (monthRun p) "M"%char; monthRun p;
    u (weekRun p) "W"%char; weekRun p;
    u (dayRun p) "D"%char; dayRun p;
    match t with Some _ => Some (time_text t) | None => None end;
    u (time_run hourRun t) "H"%char; time_run hourRun t;
    u (time_run minuteRun t) "M"%char; time_run minuteRun t;
    u (time_run secondRun t) "S"%char; time_run secondRun t ].

(** The parts that [d.String()] writes: the non-zero fields. *)
Definition run_of (v : Z) : option string :=
  if v =? 0 then None else Some (Strconv.Itoa v).

Definition parts_of (d : Duration) : Parts :=
  mkParts (run_of (Years d)) (run_of (Months d)) (run_of (Weeks d))
          (run_of (Days d))
          (if HasTimePart d
           then Some (mkTimeParts (run_of (Hours d)) (run_of (Minutes d))
                                  (run_of (Seconds d)))
           else None).

(** A unit at the head of [s], if there is one, and the text after it. *)
Definition scan_run (l : ascii) (s : string) : option string * string :=
  match scan l s with
  | Some (ds, r) => (Some ds, r)
  | None => (None, s)
  end.

(** The time part at the head of [s]. *)
Definition scan_time (s : string) : option TimeParts * string :=
  match s with
  | String c s1 =>
      if Ascii.eqb "T" c then
        let '(h, s2) := scan_run "H" s1 in
        let '(mi, s3) := scan_run "M" s2 in
        let '(sc, s4) := scan_run "S" s3 in
        (Some (mkTimeParts h mi sc), s4)
      else (None, s)
  | EmptyString => (None, s)
  end.

(** The units that follow a [P], read from left to right, and the text
    that is left over. *)
Definition scan_parts (s : string) : Parts * string :=
  let '(y, s1) := scan_run "Y" s in
  let '(mo, s2) := scan_run "M" s1 in
  let '(w, s3) := scan_run "W" s2 in
  let '(dy, s4) := scan_run "D" s3 in
  let '(t, s5) := scan_time s4 in
  (mkParts y mo w dy t, s5).

(** The registers a matched time part sets. *)
Definition set_time (t : option TimeParts) (cs : Regexp.caps) : Regexp.caps :=
  match t with
  | Some tp =>
      Regexp.set_cap 9 (time_text t)
        (set_unit 14 15 "S" (secondRun tp)
           (set_unit 12 13 "M" (minuteRun tp)
              (set_unit 10 11 "H" (hourRun tp) cs)))
  | None => cs
  end.

(** [(T(...)?(...)?(...)?)?] as the pattern [full] writes it. *)
Definition time_re : Regexp.regex :=
  Regexp.Opt (Regexp.Group 9 ""
    (Regexp.cat_all [Regexp.Lit "T"; unit_re 10 11 "hour" "H";
                     unit_re 12 13 "minute" "M";
                     unit_re 14 15 "second" "S"])).

(** The pairs the loop of [FromString] runs over. *)
Definition names16 : list (nat * string) :=
  Eval cbv in enumerate 0 (Regexp.SubexpNames full).

(** Text that does not start with a digit. *)
Definition no_digit_head (s : string) : Prop :=
  match s with
  | EmptyString => True
  | String c _ => Strconv.is_digit c = false
  end.

(** Text whose first character is [P]. *)
Definition starts_with_P (s : string) : bool :=
  match s with
  | String c _ => Ascii.eqb c "P"
  | EmptyString => false
  end.

(** The day number, counted from 1970-01-01, that [time.Date] computes
    for a year, a month from 1 to 12 and a day of the month. *)
Definition daysOfCivil (year month day : Z) : Z :=
  let d := GoTime.daysSinceEpoch year + GoTime.daysBeforeMonth (month - 1) in
  let d := if GoTime.isLeap year && (3 <=? month) then d + 1 else d in
  d + (day - 1).

(** A day of the 400-year cycle is given a month from 1 to 12 and the
    date that [time.Date] maps back to it. *)
Definition cycle_ok (r : Z) : bool :=
  let '(y, mo, dd) := GoTime.dateInCycle r in
  (1 <=? mo) && (mo <=? 12) && (daysOfCivil y mo dd =? r - 719162).

Fixpoint check_from (n : nat) (r : Z) : bool :=
  match n with
  | O => true
  | S n' => cycle_ok r && check_from n' (r + 1)
  end.

(** A location whose clocks go forward by one hour at the instant
    1710054000 (2024-03-10T07:00:00Z), from five to four hours west of
    UTC, as the clocks of America/New_York did. *)
Definition springForward : GoTime.Location :=
  GoTime.mkLocation (fun sec =>
    if sec <? 1710054000 then (-18000, GoTime.alpha, 1710054000)
    else (-14400, 1710054000, GoTime.omega)).

(** The Unix epoch, in UTC, without a monotonic reading. *)
Definition unixEpoch : GoTime.Time := GoTime.mkTime 0 0 None GoTime.UTC.

(* ================================================================== *)
(** ** Further notions used by the properties beyond the claims *)

(** Some character of [s] is [c]. *)
Fixpoint has_char (c : ascii) (s : string) : bool :=
  match s with
  | EmptyString => false
  | String c' s' => Ascii.eqb c c' || has_char c s'
  end.

(** The fields of [d] up to its first negative one, in the order years,
    months, weeks, days, hours, minutes, seconds; zero from there on. *)
Definition keep_nonneg (d : Duration) : Duration :=
  let g1 := 0 <=? Years d in
  let g2 := g1 && (0 <=? Months d) in
  let g3 := g2 && (0 <=? Weeks d) in
  let g4 := g3 && (0 <=? Days d) in
  let g5 := g4 && (0 <=? Hours d) in
  let g6 := g5 && (0 <=? Minutes d) in
  let g7 := g6 && (0 <=? Seconds d) in
  mkDuration (if g1 then Years d else 0) (if g2 then Months d else 0)
             (if g3 then Weeks d else 0) (if g4 then Days d else 0)
             (if g5 then Hours d else 0) (if g6 then Minutes d else 0)
             (if g7 then Seconds d else 0).

(** The units of [d.String()] that [FromString] reads back: those before
    the first negative field. *)
Definition parts_kept (d : Duration) : Parts :=
  let g1 := 0 <=? Years d in
  let g2 := g1 && (0 <=? Months d) in
  let g3 := g2 && (0 <=? Weeks d) in
  let g4 := g3 && (0 <=? Days d) in
  let g5 := 0 <=? Hours d in
  let g6 := g5 && (0 <=? Minutes d) in
  let g7 := g6 && (0 <=? Seconds d) in
  mkParts (if g1 then run_of (Years d) else None)
          (if g2 then run_of (Months d) else None)
          (if g3 then run_of (Weeks d) else None)
          (if g4 then run_of (Days d) else None)
          (if g4 && HasTimePart d
           then Some (mkTimeParts
                        (if g5 then run_of (Hours d) else None)
                        (if g6 then run_of (Minutes d) else None)
                        (if g7 then run_of (Seconds d) else None))
           else None).

(** Text that starts with a minus sign. *)
Definition dash_head (s : string) : Prop :=
  match s with
  | String c _ => c = "-"%char
  | EmptyString => False
  end.

(** What [d.String()] writes after the date units. *)
Definition time_out (d : Duration) : string :=
  if HasTimePart d
  then "T" ++ unit_out (Hours d) "H" ++ unit_out (Minutes d) "M"
           ++ unit_out (Seconds d) "S"
  else "".

(** A digit run with a zero written in front of it. *)
Definition pad_run (run : option string) : option string :=
  match run with
  | Some n => Some (String "0" n)
  | None => None
  end.

Definition pad_parts (p : Parts) : Parts :=
  mkParts (pad_run (yearRun p)) (pad_run (monthRun p))
          (pad_run (weekRun p)) (pad_run (dayRun p))
          (match timeParts p with
           | Some t => Some (mkTimeParts (pad_run (hourRun t))
                                         (pad_run (minuteRun t))
                                         (pad_run (secondRun t)))
           | None => None
           end).

(** The parts of a word without a time part, and the same word with a
    [T] and nothing after it. *)
Definition date_only (y mo w dy : option string) : Parts :=
  mkParts y mo w dy None.

Definition date_dangling_T (y mo w dy : option string) : Parts :=
  mkParts y mo w dy (Some (mkTimeParts None None None)).

(** The instant [t] with the monotonic reading [r] in place of its own. *)
Definition with_mono (t : GoTime.Time) (r : option Z) : GoTime.Time :=
  GoTime.mkTime (GoTime.unixSec t) (GoTime.nsec t) r (GoTime.loc t).

(** Every field of [a] is at most the same field of [b]. *)
Definition le_fields (a b : Duration) : Prop :=
  Years a <= Years b /\ Months a <= Months b /\ Weeks a <= Weeks b /\
  Days a <= Days b /\ Hours a <= Hours b /\ Minutes a <= Minutes b /\
  Seconds a <= Seconds b.

(** Leap days before the year after [a]: the count that
    [daysSinceEpoch] adds to 365 days a year. *)
Definition leapCount (a : Z) : Z := a / 4 - a / 100 + a / 400.

(* ================================================================== *)
(** * Lemmas *)

(** *** Strings *)

Lemma append_nil_r (s : string) : s ++ "" = s.
Proof. induction s as [| c s IH]; simpl; [reflexivity | now rewrite IH]. Qed.

Lemma append_assoc (a b c : string) : (a ++ b) ++ c = a ++ (b ++ c).
Proof. induction a as [| x a IH]; simpl; [reflexivity | now rewrite IH]. Qed.

Lemma length_append (a b : string) :
  String.length (a ++ b) = (String.length a + String.length b)%nat.
Proof. induction a as [| x a IH]; simpl; [reflexivity | now rewrite IH]. Qed.

(** *** Decimal digits *)

Lemma digit_char_is_digit (d : Z) :
  0 <= d <= 9 ->
  Strconv.is_digit (Strconv.digit_char d) = true /\
  Strconv.digit_val (Strconv.digit_char d) = d.
Proof.
  intros H.
  assert (d = 0 \/ d = 1 \/ d = 2 \/ d = 3 \/ d = 4 \/ d = 5 \/ d = 6 \/
          d = 7 \/ d = 8 \/ d = 9) as Hd by lia.
  repeat (destruct Hd as [Hd | Hd]; [subst d; split; reflexivity |]).
  subst d; split; reflexivity.
Qed.

Lemma is_digit_val (c : ascii) :
  Strconv.is_digit c = true -> 0 <= Strconv.digit_val c <= 9.
Proof.
  unfold Strconv.is_digit, Strconv.digit_val.
  intros H. apply andb_true_iff in H as [H1 H2].
  apply N.leb_le in H1, H2. lia.
Qed.

Lemma all_digits_app (a b : string) :
  Strconv.all_digits (a ++ b) = Strconv.all_digits a && Strconv.all_digits b.
Proof.
  induction a as [| c a IH]; simpl; [reflexivity |].
  rewrite IH. now rewrite andb_assoc.
Qed.

Lemma digits_value_app (a b : string) (acc : Z) :
  Strconv.digits_value (a ++ b) acc =
  Strconv.digits_value b (Strconv.digits_value a acc).
Proof.
  revert acc. induction a as [| c a IH]; intros acc; simpl; [reflexivity |].
  apply IH.
Qed.

Lemma digits_value_lower (s : string) (acc : Z) :
  Strconv.all_digits s = true -> 0 <= acc ->
  acc <= Strconv.digits_value s acc.
Proof.
  revert acc. induction s as [| c s IH]; intros acc Hs Hacc; simpl in *.
  - lia.
  - apply andb_true_iff in Hs as [Hc Hs].
    pose proof (is_digit_val c Hc).
    specialize (IH (acc * 10 + Strconv.digit_val c) Hs). lia.
Qed.

(** The digit loop writes the decimal digits of [u] in front of [acc]. *)
Lemma fmt_digits_spec (f : nat) :
  forall u acc, 0 <= u < 2 ^ Z.of_nat (S f) ->
  exists ds,
    Strconv.fmt_digits (S f) u acc = ds ++ acc /\
    ds <> "" /\
    Strconv.all_digits ds = true /\
    forall a, Strconv.digits_value ds a = a * 10 ^ Z.of_nat (String.length ds) + u.
Proof.
  induction f as [| f IH]; intros u acc Hu.
  - change (2 ^ Z.of_nat 1) with 2 in Hu.
    assert (Hlt : (u <? 10) = true) by (apply Z.ltb_lt; lia).
    simpl. rewrite Hlt.
    destruct (digit_char_is_digit u ltac:(lia)) as [Hd Hv].
    exists (String (Strconv.digit_char u) ""). simpl.
    rewrite Hd, Hv. repeat split; try discriminate; try (intros a; lia).
  - cbn [Strconv.fmt_digits].
    destruct (u <? 10) eqn:Hlt.
    + apply Z.ltb_lt in Hlt.
      destruct (digit_char_is_digit u ltac:(lia)) as [Hd Hv].
      exists (String (Strconv.digit_char u) ""). simpl.
      rewrite Hd, Hv. repeat split; try discriminate; try (intros a; lia).
    + apply Z.ltb_ge in Hlt.
      assert (Hq : 0 <= u / 10 < 2 ^ Z.of_nat (S f)).
      { split; [apply Z.div_pos; lia |].
        apply Z.div_lt_upper_bound; [lia |].
        rewrite (Nat2Z.inj_succ (S f)), Z.pow_succ_r in Hu by lia. lia. }
      destruct (IH (u / 10) (String (Strconv.digit_char (u mod 10)) acc) Hq)
        as (ds & Heq & Hne & Hall & Hval).
      pose proof (Z.mod_pos_bound u 10 ltac:(lia)) as Hm.
      destruct (digit_char_is_digit (u mod 10) ltac:(lia)) as [Hd Hv].
      exists (ds ++ String (Strconv.digit_char (u mod 10)) "").
      cbn [Strconv.fmt_digits] in Heq. rewrite Heq. repeat split.
      * now rewrite append_assoc.
      * destruct ds; [congruence | discriminate].
      * rewrite all_digits_app, Hall. simpl. now rewrite Hd.
      * intros a. rewrite digits_value_app, Hval. simpl.
        rewrite Hv, length_append. simpl String.length.
        rewrite Nat2Z.inj_add. change (Z.of_nat 1) with 1.
        rewrite Z.pow_add_r by lia.
        pose proof (Z.div_mod u 10 ltac:(lia)). lia.
Qed.

Lemma fmt_unsigned_spec (u : Z) :
  0 <= u ->
  Strconv.fmt_unsigned u <> "" /\
  Strconv.all_digits (Strconv.fmt_unsigned u) = true /\
  Strconv.digits_value (Strconv.fmt_unsigned u) 0 = u.
Proof.
  intros Hu. unfold Strconv.fmt_unsigned.
  assert (Hb : 0 <= u < 2 ^ Z.of_nat (S (Z.to_nat (Z.log2 u)))).
  { split; [exact Hu |].
    rewrite Nat2Z.inj_succ, Z2Nat.id by apply Z.log2_nonneg.
    destruct (Z.eq_dec u 0) as [-> | Hnz]; [reflexivity |].
    apply Z.log2_spec. lia. }
  destruct (fmt_digits_spec _ u "" Hb) as (ds & Heq & Hne & Hall & Hval).
  rewrite Heq, append_nil_r.
  repeat split; auto.
Qed.

(** A positive [int] prints as a digit run that reads back as itself. *)
Lemma Itoa_pos (z : Z) :
  0 < z ->
  Strconv.Itoa z <> "" /\
  Strconv.all_digits (Strconv.Itoa z) = true /\
  Strconv.digits_value (Strconv.Itoa z) 0 = z.
Proof.
  intros Hz. unfold Strconv.Itoa.
  assert ((z <? 0) = false) as -> by (apply Z.ltb_ge; lia).
  apply fmt_unsigned_spec. lia.
Qed.

(** A digit is neither sign character. *)
Lemma is_digit_not_sign (c : ascii) :
  Strconv.is_digit c = true -> c <> "-"%char /\ c <> "+"%char.
Proof.
  intros H. split; intros ->; discriminate H.
Qed.

(** [Atoi] on a run of digits: its value, unless it is beyond [int]. *)
Lemma Atoi_digits (n : string) :
  n <> "" -> Strconv.all_digits n = true ->
  Strconv.Atoi n =
  if Strconv.digits_value n 0 <=? Mach.maxInt
  then inl (Strconv.digits_value n 0)
  else inr (mkNumError "Atoi" n ErrRange).
Proof.
  intros Hne Hall. destruct n as [| c n]; [congruence |].
  pose proof Hall as Hall'.
  simpl in Hall. apply andb_true_iff in Hall as [Hc Hn].
  destruct (is_digit_not_sign c Hc) as [Hm Hp].
  unfold Strconv.Atoi.
  assert (Hsplit :
    match String c n with
    | String "-"%char b => (true, b)
    | String "+"%char b => (false, b)
    | _ => (false, String c n)
    end = (false, String c n)).
  { destruct c as [[] [] [] [] [] [] [] []]; try reflexivity;
      first [now elim Hm | now elim Hp]. }
  rewrite Hsplit. rewrite Hall'. reflexivity.
Qed.

(** *** Scanning a unit *)

Lemma scan_head (l : ascii) (s : string) (x : string * string) :
  scan l s = Some x ->
  exists c s', s = String c s' /\ Strconv.is_digit c = true.
Proof.
  destruct s as [| c s']; simpl; [discriminate |].
  destruct (Strconv.is_digit c) eqn:Hc; [| discriminate].
  intros _. now exists c, s'.
Qed.

Lemma scan_no_digit (l : ascii) (s : string) :
  match s with
  | EmptyString => True
  | String c _ => Strconv.is_digit c = false
  end ->
  scan l s = None.
Proof.
  destruct s as [| c s']; simpl; [reflexivity |]. now intros ->.
Qed.

(** A digit run followed by its letter is found, whatever follows. *)
Lemma scan_hit (l : ascii) (ds rest : string) :
  Strconv.is_digit l = false ->
  ds <> "" -> Strconv.all_digits ds = true ->
  scan l (ds ++ String l rest) = Some (ds, rest).
Proof.
  intros Hl. induction ds as [| c ds IH]; intros Hne Hall; [congruence |].
  simpl in Hall. apply andb_true_iff in Hall as [Hc Hds].
  cbn [append scan]. rewrite Hc.
  destruct ds as [| c' ds'].
  - cbn [append scan]. rewrite Hl, Ascii.eqb_refl. reflexivity.
  - rewrite IH by (auto; discriminate). reflexivity.
Qed.

(** A digit run followed by another letter is not. *)
Lemma scan_other (l l' : ascii) (ds rest : string) :
  Strconv.is_digit l = false -> Strconv.is_digit l' = false ->
  l <> l' -> Strconv.all_digits ds = true ->
  scan l (ds ++ String l' rest) = None.
Proof.
  intros Hl Hl' Hne. induction ds as [| c ds IH]; intros Hall.
  - cbn [append scan]. now rewrite Hl'.
  - simpl in Hall. apply andb_true_iff in Hall as [Hc Hds].
    cbn [append scan]. rewrite Hc, (IH Hds).
    destruct ds as [| c' ds'].
    + cbn [append]. apply Ascii.eqb_neq in Hne. now rewrite Hne.
    + cbn [append]. simpl in Hds. apply andb_true_iff in Hds as [Hc' _].
      destruct (Ascii.eqb l c') eqn:E; [| reflexivity].
      apply Ascii.eqb_eq in E. subst c'. congruence.
Qed.

Lemma run_ok_some (n : string) :
  run_ok (Some n) = true -> n <> "" /\ Strconv.all_digits n = true.
Proof.
  unfold run_ok. intros H. apply andb_true_iff in H as [H1 H2].
  split; [| exact H2]. intros ->. discriminate H1.
Qed.

(** The text of a unit is found by the scan for its own letter... *)
Lemma scan_unit_text (l : ascii) (run : option string) (tail : string) :
  Strconv.is_digit l = false -> run_ok run = true ->
  scan l tail = None ->
  scan l (unit_text run l ++ tail) =
  match run with Some ds => Some (ds, tail) | None => None end.
Proof.
  intros Hl Hok Htail. destruct run as [ds |]; cbn [unit_text].
  - destruct (run_ok_some ds Hok) as [Hne Hall].
    rewrite append_assoc. now apply scan_hit.
  - exact Htail.
Qed.

(** ... and passed over by the scan for any other. *)
Lemma scan_skip_unit (l l' : ascii) (run : option string) (tail : string) :
  Strconv.is_digit l = false -> Strconv.is_digit l' = false ->
  l <> l' -> run_ok run = true ->
  scan l tail = None ->
  scan l (unit_text run l' ++ tail) = None.
Proof.
  intros Hl Hl' Hne Hok Htail. destruct run as [ds |]; cbn [unit_text].
  - destruct (run_ok_some ds Hok) as [_ Hall].
    rewrite append_assoc. now apply scan_other.
  - exact Htail.
Qed.

(** *** The matcher on the shapes of [full] *)

Lemma set_cap_length (i : nat) (v : string) (cs : Regexp.caps) :
  List.length (Regexp.set_cap i v cs) = List.length cs.
Proof.
  revert i. induction cs as [| c cs IH]; intros i; destruct i; simpl;
    try reflexivity.
  now rewrite IH.
Qed.

(** [\d+] followed by a letter that is no digit: the run is taken whole,
    a shorter run is never followed by the letter. *)
Lemma plus_then_lit (l : ascii) (K : string -> string -> option Regexp.caps) :
  Strconv.is_digit l = false ->
  forall s k,
    (forall t rest,
        k t rest =
        match rest with
        | String c r' => if Ascii.eqb l c then K t r' else None
        | EmptyString => None
        end) ->
    Regexp.plus_class Strconv.is_digit s k =
    match scan l s with
    | Some (ds, r) => K ds r
    | None => None
    end.
Proof.
  intros Hl s. revert K.
  induction s as [| c s IH]; intros K k Hk; [reflexivity |].
  cbn [Regexp.plus_class scan].
  destruct (Strconv.is_digit c) eqn:Hc; [| reflexivity].
  rewrite (IH (fun t r => K (String c t) r) (fun cs rest => k (String c cs) rest))
    by (intros; apply Hk).
  assert (Hdig : forall x, scan l s = Some x ->
                           k (String c "") s = None).
  { intros x Hx. destruct (scan_head _ _ _ Hx) as (c' & s' & -> & Hc').
    rewrite Hk. destruct (Ascii.eqb l c') eqn:E; [| reflexivity].
    apply Ascii.eqb_eq in E. subst c'. congruence. }
  destruct (scan l s) as [[ds r] |] eqn:Hs.
  - destruct (K (String c ds) r) eqn:HK; [reflexivity |].
    now apply (Hdig (ds, r)).
  - rewrite Hk. destruct s as [| c2 r2]; [reflexivity |].
    now destruct (Ascii.eqb l c2).
Qed.

(** What [((?P<name>\d+)L)?] does in front of a continuation. *)
Lemma m_unit (i j : nat) (name : string) (l : ascii) (s : string)
      (cs : Regexp.caps) (k : Regexp.cont) :
  Strconv.is_digit l = false ->
  Regexp.m (unit_re i j name l) s cs k =
  match scan l s with
  | Some (ds, r) =>
      match k (ds ++ String l "") r (set_unit i j l (Some ds) cs) with
      | Some x => Some x
      | None => k "" s cs
      end
  | None => k "" s cs
  end.
Proof.
  intros Hl. unfold unit_re. cbn [Regexp.m Regexp.cat_all].
  rewrite (plus_then_lit l
             (fun t r => k (t ++ String l "") r (set_unit i j l (Some t) cs)) Hl).
  - now destruct (scan l s) as [[ds r] |].
  - intros t rest. destruct rest as [| c r']; [reflexivity |].
    destruct (Ascii.eqb l c); reflexivity.
Qed.

(** The same in front of a continuation that never fails: the unit is
    taken whenever it is there. *)
Lemma m_unit_total (i j : nat) (name : string) (l : ascii) (s : string)
      (cs : Regexp.caps) (k : Regexp.cont) :
  Strconv.is_digit l = false -> total k ->
  Regexp.m (unit_re i j name l) s cs k =
  let '(run, r) := scan_run l s in
  k (unit_text run l) r (set_unit i j l run cs).
Proof.
  intros Hl Hk. rewrite m_unit by assumption. unfold scan_run.
  destruct (scan l s) as [[ds r] |]; [| reflexivity].
  cbn [unit_text].
  destruct (k (ds ++ String l "") r (set_unit i j l (Some ds) cs)) eqn:E;
    [reflexivity |].
  now apply Hk in E.
Qed.

(** A pattern built from [?] alone matches wherever it is tried. *)
Lemma m_always (r : Regexp.regex) :
  always r = true ->
  forall s cs k, total k -> Regexp.m r s cs k <> None.
Proof.
  induction r as [| c | cls | r1 IH1 r2 IH2 | r IH | i n r IH];
    intros Hr s cs k Hk; try discriminate Hr; cbn [Regexp.m].
  - apply Hk.
  - simpl in Hr. apply andb_true_iff in Hr as [H1 H2].
    apply IH1; [exact H1 |]. intros t1 s1 cs1.
    apply IH2; [exact H2 |]. intros t2 s2 cs2. apply Hk.
  - destruct (Regexp.m r s cs k); [discriminate | apply Hk].
  - apply IH; [exact Hr |]. intros t s' cs'. apply Hk.
Qed.

(** Every success of the matcher is a success of its continuation, on
    registers of the same number. *)
Lemma plus_class_through (cls : ascii -> bool) (s : string)
      (k : string -> string -> option Regexp.caps) (x : Regexp.caps) :
  Regexp.plus_class cls s k = Some x ->
  exists t rest, k t rest = Some x.
Proof.
  revert k. induction s as [| c s IH]; intros k; simpl; [discriminate |].
  destruct (cls c); [| discriminate].
  destruct (Regexp.plus_class cls s (fun cs rest => k (String c cs) rest))
    eqn:E.
  - intros [= ->]. apply IH in E as (t & rest & E). eauto.
  - intros E'. eauto.
Qed.

Lemma m_through (r : Regexp.regex) :
  forall s cs k x,
    Regexp.m r s cs k = Some x ->
    exists t s' cs',
      List.length cs' = List.length cs /\ k t s' cs' = Some x.
Proof.
  induction r as [| c | cls | r1 IH1 r2 IH2 | r IH | i n r IH];
    intros s cs k x; cbn [Regexp.m].
  - intros H. eauto.
  - destruct s as [| c' s']; [discriminate |].
    destruct (Ascii.eqb c c'); [| discriminate]. intros H. eauto.
  - intros H. apply plus_class_through in H as (t & rest & H). eauto.
  - intros H. apply IH1 in H as (t1 & s1 & cs1 & L1 & H).
    apply IH2 in H as (t2 & s2 & cs2 & L2 & H).
    exists (t1 ++ t2), s2, cs2. split; [congruence | exact H].
  - destruct (Regexp.m r s cs k) eqn:E.
    + intros [= ->]. now apply IH in E.
    + intros H. eauto.
  - intros H. apply IH in H as (t & s' & cs' & L & H).
    exists t, s', (Regexp.set_cap i t cs').
    split; [now rewrite set_cap_length | exact H].
Qed.

(** *** The pattern [full] *)

Lemma full_shape :
  full =
  Regexp.cat_all
    [Regexp.Lit "P"; unit_re 1 2 "year" "Y"; unit_re 3 4 "month" "M";
     unit_re 5 6 "week" "W"; unit_re 7 8 "day" "D"; time_re].
Proof. reflexivity. Qed.

(** The groups of [full] are numbered in the order of their opening
    parentheses, as [regexp] numbers them. *)
Lemma full_groups_numbered : map fst (Regexp.groups full) = seq 1 15.
Proof. reflexivity. Qed.

Ltac solve_total :=
  repeat first
    [ progress (unfold total; intros)
    | discriminate
    | match goal with H : total _ |- _ => apply H end
    | apply m_always; [reflexivity |] ].

Lemma m_time (s : string) (cs : Regexp.caps) (k : Regexp.cont) :
  total k ->
  Regexp.m time_re s cs k =
  let '(t, r) := scan_time s in k (time_text t) r (set_time t cs).
Proof.
  intros Hk. unfold time_re, scan_time.
  cbn [Regexp.m Regexp.cat_all].
  destruct s as [| c s1]; [reflexivity |].
  destruct (Ascii.eqb "T" c) eqn:Ec; [| reflexivity].
  rewrite (m_unit_total 10 11) by (try reflexivity; solve_total).
  destruct (scan_run "H" s1) as [h s2].
  rewrite (m_unit_total 12 13) by (try reflexivity; solve_total).
  destruct (scan_run "M" s2) as [mi s3].
  rewrite (m_unit_total 14 15) by (try reflexivity; solve_total).
  destruct (scan_run "S" s3) as [sc s4].
  cbn [Regexp.m time_text set_time hourRun minuteRun secondRun].
  rewrite append_nil_r.
  destruct (k _ s4 _) eqn:E; [reflexivity |]. now apply Hk in E.
Qed.

(** Where the input starts with [P] the pattern matches, and its
    registers are those of the units that a left-to-right scan finds. *)
Lemma match_here_full_P (s : string) :
  Regexp.match_here full (String "P" s) =
  Some (caps_of (fst (scan_parts s))).
Proof.
  unfold Regexp.match_here.
  change (Regexp.NumSubexp full) with 15%nat.
  rewrite full_shape. cbn [Regexp.m Regexp.cat_all repeat].
  change (Ascii.eqb "P" "P") with true. cbv iota.
  unfold scan_parts.
  rewrite (m_unit_total 1 2) by (try reflexivity; solve_total).
  destruct (scan_run "Y" s) as [y s1].
  rewrite (m_unit_total 3 4) by (try reflexivity; solve_total).
  destruct (scan_run "M" s1) as [mo s2].
  rewrite (m_unit_total 5 6) by (try reflexivity; solve_total).
  destruct (scan_run "W" s2) as [w s3].
  rewrite (m_unit_total 7 8) by (try reflexivity; solve_total).
  destruct (scan_run "D" s3) as [dy s4].
  rewrite m_time by solve_total.
  destruct (scan_time s4) as [t s5].
  cbn [Regexp.m fst]. f_equal.
  unfold caps_of, render; cbn [yearRun monthRun weekRun dayRun timeParts].
  rewrite append_nil_r.
  destruct y, mo, w, dy; destruct t as [[h mi sc] |];
    try destruct h; try destruct mi; try destruct sc; reflexivity.
Qed.

Lemma match_here_full_nil : Regexp.match_here full "" = None.
Proof. reflexivity. Qed.

Lemma match_here_full_other (c : ascii) (s : string) :
  Ascii.eqb c "P" = false -> Regexp.match_here full (String c s) = None.
Proof.
  intros Hc. unfold Regexp.match_here. rewrite full_shape.
  cbn [Regexp.m Regexp.cat_all].
  rewrite Ascii.eqb_sym in Hc. now rewrite Hc.
Qed.

(** *** The leftmost match *)

Lemma find_no_P (s : string) (off : nat) :
  no_P s = true -> Regexp.find full s off = None.
Proof.
  revert off. induction s as [| c s IH]; intros off H.
  - reflexivity.
  - cbn [no_P] in H. apply andb_true_iff in H as [Hc Hs].
    apply negb_true_iff in Hc.
    cbn [Regexp.find]. rewrite (match_here_full_other c s Hc). now apply IH.
Qed.

Lemma find_skip (pre s : string) (off : nat) :
  no_P pre = true ->
  Regexp.find full (pre ++ s) off =
  Regexp.find full s (off + String.length pre).
Proof.
  revert off. induction pre as [| c pre IH]; intros off H.
  - cbn [append String.length]. now rewrite Nat.add_0_r.
  - cbn [no_P] in H. apply andb_true_iff in H as [Hc Hs].
    apply negb_true_iff in Hc.
    cbn [append Regexp.find String.length].
    rewrite (match_here_full_other c _ Hc), (IH _ Hs).
    f_equal. lia.
Qed.

Lemma find_P (s : string) (off : nat) :
  Regexp.find full (String "P" s) off =
  Some (off, caps_of (fst (scan_parts s))).
Proof. cbn [Regexp.find]. now rewrite match_here_full_P. Qed.

(** A string either has no [P], or splits at its first [P]. *)
Lemma split_at_P (s : string) :
  no_P s = true \/
  exists pre rest, s = pre ++ String "P" rest /\ no_P pre = true.
Proof.
  induction s as [| c s IH]; [now left |].
  destruct (Ascii.eqb c "P") eqn:Ec.
  - right. apply Ascii.eqb_eq in Ec. subst c. now exists "", s.
  - destruct IH as [IH | (pre & rest & -> & Hpre)].
    + left. cbn [no_P]. now rewrite Ec, IH.
    + right. exists (String c pre), rest. split; [reflexivity |].
      cbn [no_P]. now rewrite Ec, Hpre.
Qed.

Lemma no_P_app_P (pre rest : string) :
  no_P (pre ++ String "P" rest) = false.
Proof.
  induction pre as [| c pre IH]; [reflexivity |].
  cbn [append no_P]. rewrite IH. apply andb_false_r.
Qed.

Lemma MatchString_full (s : string) :
  Regexp.MatchString full s = negb (no_P s).
Proof.
  unfold Regexp.MatchString.
  destruct (split_at_P s) as [H | (pre & rest & -> & Hpre)].
  - now rewrite find_no_P, H.
  - now rewrite find_skip, find_P, no_P_app_P.
Qed.

(** *** FromString through the scan *)

Lemma FromString_no_P (s : string) :
  no_P s = true -> FromString s = Err ErrBadFormat.
Proof.
  intros H. unfold FromString. now rewrite MatchString_full, H.
Qed.

Lemma FromString_P (pre rest : string) :
  no_P pre = true ->
  FromString (pre ++ String "P" rest) =
  fill names16 (map Regexp.cap_text (caps_of (fst (scan_parts rest))))
       zeroDuration.
Proof.
  intros H. unfold FromString.
  rewrite MatchString_full, no_P_app_P. cbn [negb].
  unfold Regexp.FindStringSubmatch. rewrite find_skip, find_P by exact H.
  reflexivity.
Qed.

(** *** The loop of FromString *)

Lemma cap_text_empty (run : option string) :
  run_ok run = true ->
  (Regexp.cap_text run =? "")%string =
  match run with Some _ => false | None => true end.
Proof.
  destruct run as [n |]; [| reflexivity].
  intros H. destruct (run_ok_some n H) as [Hne _].
  now apply String.eqb_neq.
Qed.

(** One turn of the loop on the whole match or on a group without a
    name. *)
Lemma fill_skip (i : nat) (name : string) (rest : list (nat * string))
      (match_ : list string) (d : Duration) (part : string) :
  nth_error match_ i = Some part ->
  (i =? 0)%nat || (name =? "")%string = true ->
  fill ((i, name) :: rest) match_ d = fill rest match_ d.
Proof.
  intros Hnth H. cbn [fill]. now rewrite Hnth, H.
Qed.

(** One turn of the loop on a named group. *)
Lemma fill_named (i : nat) (name : string) (rest : list (nat * string))
      (match_ : list string) (d : Duration) (run : option string) :
  nth_error match_ i = Some (Regexp.cap_text run) ->
  (i =? 0)%nat = false -> (name =? "")%string = false ->
  run_ok run = true ->
  fill ((i, name) :: rest) match_ d =
  match run with
  | None => fill rest match_ d
  | Some n =>
      if run_value run <=? Mach.maxInt then
        match assign name (run_value run) d with
        | Some d' => fill rest match_ d'
        | None => Err (ErrUnknownField name)
        end
      else Err (ErrNum (mkNumError "Atoi" n ErrRange))
  end.
Proof.
  intros Hnth Hi Hname Hok. cbn [fill].
  rewrite Hnth, Hi, Hname, (cap_text_empty run Hok). cbn [orb].
  destruct run as [n |]; [| reflexivity].
  destruct (run_ok_some n Hok) as [Hne Hall].
  cbn [Regexp.cap_text run_value]. rewrite (Atoi_digits n Hne Hall).
  now destruct (Strconv.digits_value n 0 <=? Mach.maxInt).
Qed.

(** A named group whose run fits, or that took no part. *)
Lemma fill_named_fit (i : nat) (name : string) (rest : list (nat * string))
      (match_ : list string) (d d' : Duration) (run : option string) :
  nth_error match_ i = Some (Regexp.cap_text run) ->
  (i =? 0)%nat = false -> (name =? "")%string = false ->
  run_ok run = true ->
  (run_value run <=? Mach.maxInt) = true ->
  assign name (run_value run) d = Some d' ->
  (run = None -> d' = d) ->
  fill ((i, name) :: rest) match_ d = fill rest match_ d'.
Proof.
  intros Hnth Hi Hname Hok Hfit Has Hnone.
  rewrite (fill_named i name rest match_ d run) by assumption.
  destruct run as [n |].
  - now rewrite Hfit, Has.
  - now rewrite Hnone.
Qed.

(** A named group whose run does not fit ends the loop with the error of
    [Atoi]. *)
Lemma fill_named_unfit (i : nat) (name : string) (rest : list (nat * string))
      (match_ : list string) (d : Duration) (run : option string) :
  nth_error match_ i = Some (Regexp.cap_text run) ->
  (i =? 0)%nat = false -> (name =? "")%string = false ->
  run_ok run = true ->
  (run_value run <=? Mach.maxInt) = false ->
  fill ((i, name) :: rest) match_ d =
  Err (ErrNum (mkNumError "Atoi" (Regexp.cap_text run) ErrRange)).
Proof.
  intros Hnth Hi Hname Hok Hfit.
  rewrite (fill_named i name rest match_ d run) by assumption.
  destruct run as [n |].
  - now rewrite Hfit.
  - discriminate Hfit.
Qed.

Lemma parts_ok_runs (p : Parts) :
  parts_ok p = true ->
  run_ok (yearRun p) = true /\ run_ok (monthRun p) = true /\
  run_ok (weekRun p) = true /\ run_ok (dayRun p) = true /\
  run_ok (time_run hourRun (timeParts p)) = true /\
  run_ok (time_run minuteRun (timeParts p)) = true /\
  run_ok (time_run secondRun (timeParts p)) = true.
Proof.
  unfold parts_ok, time_ok. intros H.
  repeat (apply andb_true_iff in H as [H ?]).
  destruct (timeParts p) as [t |]; cbn [time_run].
  - match goal with Ht : (_ && _ && _ = true) |- _ =>
      repeat (apply andb_true_iff in Ht as [Ht ?]) end.
    repeat split; assumption.
  - repeat split; auto.
Qed.

Ltac skip :=
  repeat (erewrite fill_skip by reflexivity).

Ltac turn H :=
  skip;
  match goal with
  | |- context [fill ((?i, ?name) :: ?rest) ?m ?d] =>
      match type of H with
      | run_ok ?run = true =>
          destruct (run_value run <=? Mach.maxInt) eqn:?;
          [ erewrite (fill_named_fit i name rest m d _ run);
            [ | reflexivity | reflexivity | reflexivity | exact H
              | assumption | reflexivity | intros ->; reflexivity ]
          | rewrite (fill_named_unfit i name rest m d run);
            [ reflexivity | reflexivity | reflexivity | reflexivity
              | exact H | assumption ] ]
      end
  end;
  cbn [andb negb].

(** The first unit, in the order of the pattern, whose run is beyond
    [int], if there is one. *)
Lemma fill_caps_of (p : Parts) :
  parts_ok p = true ->
  fill names16 (map Regexp.cap_text (caps_of p)) zeroDuration =
  if parts_fit p then Ok (fields_of p)
  else Err (ErrNum (mkNumError "Atoi"
         (Regexp.cap_text
            (let d := fields_of p in
             let t := timeParts p in
             if negb (Years d <=? Mach.maxInt) then yearRun p
             else if negb (Months d <=? Mach.maxInt) then monthRun p
             else if negb (Weeks d <=? Mach.maxInt) then weekRun p
             else if negb (Days d <=? Mach.maxInt) then dayRun p
             else if negb (Hours d <=? Mach.maxInt) then time_run hourRun t
             else if negb (Minutes d <=? Mach.maxInt)
                  then time_run minuteRun t
             else time_run secondRun t))
         ErrRange)).
Proof.
  intros Hok.
  destruct (parts_ok_runs p Hok) as (Hy & Hmo & Hw & Hd & Hh & Hmi & Hs).
  unfold names16, caps_of, parts_fit, fields_of, zeroDuration.
  cbn [map Years Months Weeks Days Hours Minutes Seconds].
  turn Hy. turn Hmo. turn Hw. turn Hd. turn Hh. turn Hmi. turn Hs.
  reflexivity.
Qed.

(** *** What the scan finds *)

Lemma scan_sound (l : ascii) (s ds r : string) :
  scan l s = Some (ds, r) ->
  ds <> "" /\ Strconv.all_digits ds = true /\ s = ds ++ String l r.
Proof.
  revert ds r. induction s as [| c s IH]; intros ds r; cbn [scan];
    [discriminate |].
  destruct (Strconv.is_digit c) eqn:Hc; [| discriminate].
  destruct (scan l s) as [[ds' r'] |] eqn:Hs.
  - intros [= <- <-]. destruct (IH ds' r' eq_refl) as (Hne & Hall & ->).
    split; [discriminate |]. split; [cbn; now rewrite Hc, Hall | reflexivity].
  - destruct s as [| c2 r2]; [discriminate |].
    destruct (Ascii.eqb l c2) eqn:E; [| discriminate].
    apply Ascii.eqb_eq in E. subst c2. intros [= <- <-].
    split; [discriminate |]. split; [cbn; now rewrite Hc | reflexivity].
Qed.

Lemma scan_run_sound (l : ascii) (s : string) :
  run_ok (fst (scan_run l s)) = true /\
  s = unit_text (fst (scan_run l s)) l ++ snd (scan_run l s).
Proof.
  unfold scan_run. destruct (scan l s) as [[ds r] |] eqn:Hs; cbn.
  - destruct (scan_sound l s ds r Hs) as (Hne & Hall & ->).
    rewrite Hall, append_assoc. split; [| reflexivity].
    apply String.eqb_neq in Hne. now rewrite Hne.
  - now split.
Qed.

Lemma scan_time_sound (s : string) :
  time_ok (fst (scan_time s)) = true /\
  s = time_text (fst (scan_time s)) ++ snd (scan_time s).
Proof.
  unfold scan_time. destruct s as [| c s1]; [now split |].
  destruct (Ascii.eqb "T" c) eqn:Ec; [| now split].
  apply Ascii.eqb_eq in Ec. subst c.
  pose proof (scan_run_sound "H" s1) as [Hh Eh].
  destruct (scan_run "H" s1) as [h s2].
  pose proof (scan_run_sound "M" s2) as [Hm Em].
  destruct (scan_run "M" s2) as [mi s3].
  pose proof (scan_run_sound "S" s3) as [Hs Es].
  destruct (scan_run "S" s3) as [sc s4].
  cbn [fst snd] in *. cbn [time_ok time_text hourRun minuteRun secondRun].
  rewrite Hh, Hm, Hs. split; [reflexivity |].
  rewrite Eh at 1. rewrite Em at 1. rewrite Es at 1.
  cbn [append]. now rewrite !append_assoc.
Qed.

(** The scan is sound: the runs it finds are digit runs, and the word of
    the grammar they spell, followed by what the scan leaves, is the
    input. *)
Lemma scan_parts_sound (s : string) :
  parts_ok (fst (scan_parts s)) = true /\
  String "P" s = render (fst (scan_parts s)) ++ snd (scan_parts s).
Proof.
  unfold scan_parts.
  pose proof (scan_run_sound "Y" s) as [Hy Ey].
  destruct (scan_run "Y" s) as [y s1].
  pose proof (scan_run_sound "M" s1) as [Hmo Emo].
  destruct (scan_run "M" s1) as [mo s2].
  pose proof (scan_run_sound "W" s2) as [Hw Ew].
  destruct (scan_run "W" s2) as [w s3].
  pose proof (scan_run_sound "D" s3) as [Hd Ed].
  destruct (scan_run "D" s3) as [dy s4].
  pose proof (scan_time_sound s4) as [Ht Et].
  destruct (scan_time s4) as [t s5].
  cbn [fst snd] in *.
  unfold parts_ok, render.
  cbn [yearRun monthRun weekRun dayRun timeParts].
  rewrite Hy, Hmo, Hw, Hd, Ht. split; [reflexivity |].
  rewrite Ey at 1. rewrite Emo at 1. rewrite Ew at 1. rewrite Ed at 1.
  rewrite Et at 1.
  cbn [append]. now rewrite !append_assoc.
Qed.

(** *** The scan on a word of the grammar *)

Lemma scan_run_unit (l : ascii) (run : option string) (tail : string) :
  Strconv.is_digit l = false -> run_ok run = true ->
  scan l tail = None ->
  scan_run l (unit_text run l ++ tail) = (run, tail).
Proof.
  intros Hl Hok Htail. unfold scan_run.
  rewrite scan_unit_text by assumption.
  now destruct run as [ds |].
Qed.

Ltac no_unit :=
  repeat first
    [ assumption
    | apply scan_skip_unit; [reflexivity | reflexivity | discriminate
                            | assumption |]
    | apply scan_no_digit; first [ assumption | reflexivity ] ].

Lemma scan_time_text (t : option TimeParts) (post : string) :
  time_ok t = true -> no_digit_head post ->
  match t with
  | Some _ => True
  | None => match post with
            | String c _ => Ascii.eqb "T" c = false
            | EmptyString => True
            end
  end ->
  scan_time (time_text t ++ post) = (t, post).
Proof.
  intros Hok Hpost HT. destruct t as [[h mi sc] |].
  - cbn [time_ok hourRun minuteRun secondRun] in Hok.
    apply andb_true_iff in Hok as [Hok Hs].
    apply andb_true_iff in Hok as [Hh Hm].
    cbn [time_text hourRun minuteRun secondRun append].
    rewrite !append_assoc. unfold scan_time.
    change (Ascii.eqb "T" "T") with true. cbv iota.
    rewrite (scan_run_unit "H") by (try reflexivity; no_unit).
    rewrite (scan_run_unit "M") by (try reflexivity; no_unit).
    rewrite (scan_run_unit "S") by (try reflexivity; no_unit).
    reflexivity.
  - cbn [time_text append]. unfold scan_time.
    destruct post as [| c post']; [reflexivity |]. now rewrite HT.
Qed.

Lemma scan_before_time (l : ascii) (t : option TimeParts) (post : string) :
  no_digit_head post -> scan l (time_text t ++ post) = None.
Proof.
  intros Hpost. destruct t as [t |].
  - apply scan_no_digit. reflexivity.
  - apply scan_no_digit. exact Hpost.
Qed.

Lemma trailing_ok_head (p : Parts) (post : string) :
  trailing_ok p post = true ->
  no_digit_head post /\
  match timeParts p with
  | Some _ => True
  | None => match post with
            | String c _ => Ascii.eqb "T" c = false
            | EmptyString => True
            end
  end.
Proof.
  unfold trailing_ok, no_digit_head. destruct post as [| c post'].
  - intros _. split; [exact I | now destruct (timeParts p)].
  - intros H. apply andb_true_iff in H as [Hd HT].
    apply negb_true_iff in Hd. split; [exact Hd |].
    destruct (timeParts p); [exact I |].
    apply negb_true_iff in HT. now rewrite Ascii.eqb_sym.
Qed.

(** The scan is complete: on a word of the grammar followed by text that
    cannot be taken for more of it, it finds the runs of the word. *)
Lemma scan_parts_render (p : Parts) (post : string) :
  parts_ok p = true -> trailing_ok p post = true ->
  exists body,
    render p ++ post = String "P" body /\ scan_parts body = (p, post).
Proof.
  intros Hok Htr.
  destruct (trailing_ok_head p post Htr) as [Hpost HT].
  destruct p as [y mo w dy t].
  unfold parts_ok in Hok. cbn [yearRun monthRun weekRun dayRun timeParts] in *.
  repeat (apply andb_true_iff in Hok as [Hok ?]).
  unfold render. cbn [yearRun monthRun weekRun dayRun timeParts append].
  eexists. split; [reflexivity |].
  rewrite !append_assoc. unfold scan_parts.
  pose proof (fun l => scan_before_time l t post Hpost) as Hbt.
  rewrite (scan_run_unit "Y") by (try reflexivity; no_unit; apply Hbt).
  rewrite (scan_run_unit "M") by (try reflexivity; no_unit; apply Hbt).
  rewrite (scan_run_unit "W") by (try reflexivity; no_unit; apply Hbt).
  rewrite (scan_run_unit "D") by (try reflexivity; no_unit; apply Hbt).
  rewrite scan_time_text by assumption.
  reflexivity.
Qed.

(** *** FromString, case by case *)

(** On every input with a [P]: the units after the first [P] decide. *)
Lemma FromString_scan (pre rest : string) :
  no_P pre = true ->
  FromString (pre ++ String "P" rest) =
  let p := fst (scan_parts rest) in
  if parts_fit p then Ok (fields_of p)
  else Err (ErrNum (mkNumError "Atoi"
         (Regexp.cap_text
            (let d := fields_of p in
             let t := timeParts p in
             if negb (Years d <=? Mach.maxInt) then yearRun p
             else if negb (Months d <=? Mach.maxInt) then monthRun p
             else if negb (Weeks d <=? Mach.maxInt) then weekRun p
             else if negb (Days d <=? Mach.maxInt) then dayRun p
             else if negb (Hours d <=? Mach.maxInt) then time_run hourRun t
             else if negb (Minutes d <=? Mach.maxInt)
                  then time_run minuteRun t
             else time_run secondRun t))
         ErrRange)).
Proof.
  intros Hpre. rewrite FromString_P by exact Hpre.
  apply fill_caps_of. apply scan_parts_sound.
Qed.

(** On a word of the grammar, with text around it that takes no part. *)
Lemma FromString_render (pre post : string) (p : Parts) :
  no_P pre = true -> parts_ok p = true -> trailing_ok p post = true ->
  parts_fit p = true ->
  FromString (pre ++ render p ++ post) = Ok (fields_of p).
Proof.
  intros Hpre Hok Htr Hfit.
  destruct (scan_parts_render p post Hok Htr) as (body & -> & Hscan).
  rewrite FromString_scan by exact Hpre.
  rewrite Hscan. cbn [fst]. now rewrite Hfit.
Qed.

Lemma FromString_cases (s : string) :
  (no_P s = true /\ FromString s = Err ErrBadFormat) \/
  (no_P s = false /\
   ((exists d, FromString s = Ok d) \/
    (exists n, FromString s = Err (ErrNum (mkNumError "Atoi" n ErrRange))))).
Proof.
  destruct (split_at_P s) as [H | (pre & rest & -> & Hpre)].
  - left. split; [exact H | now apply FromString_no_P].
  - right. split; [apply no_P_app_P |].
    rewrite FromString_scan by exact Hpre. cbv zeta.
    destruct (parts_fit (fst (scan_parts rest))); eauto.
Qed.

(** *** The formatter *)

(** The template, run on any [Duration], writes what section 4.2 says. *)
Lemma Execute_tmpl (d : Duration) :
  Template.Execute tmpl (dot_of d) = inl (format_spec d).
Proof.
  destruct d as [y mo w dy h mi s].
  unfold Template.Execute, tmpl, format_spec, unit_out.
  cbn -[Strconv.Itoa append Z.eqb HasTimePart].
  unfold HasTimePart. cbn [Hours Minutes Seconds].
  destruct (y =? 0), (mo =? 0), (w =? 0), (dy =? 0),
           (h =? 0), (mi =? 0), (s =? 0);
    cbn -[Strconv.Itoa];
    rewrite ?append_assoc, ?append_nil_r; cbn -[Strconv.Itoa];
    reflexivity.
Qed.

Lemma Duration_String_format (d : Duration) :
  Duration_String d = Ok (format_spec d).
Proof. unfold Duration_String. now rewrite Execute_tmpl. Qed.

Lemma unit_out_text (v : Z) (l : ascii) :
  unit_out v (String l "") = unit_text (run_of v) l.
Proof. unfold unit_out, run_of. now destruct (v =? 0). Qed.

(** What the formatter writes is the word of the grammar whose runs are
    the non-zero fields. *)
Lemma format_render (d : Duration) :
  format_spec d = render (parts_of d).
Proof.
  unfold format_spec, render, parts_of, HasTimePart.
  cbn [yearRun monthRun weekRun dayRun timeParts].
  change "Y" with (String "Y"%char "").
  rewrite !unit_out_text.
  unfold run_of.
  destruct (Z.eqb (Hours d) 0); destruct (Z.eqb (Minutes d) 0);
    destruct (Z.eqb (Seconds d) 0); reflexivity.
Qed.

Lemma run_of_ok (v : Z) : 0 <= v -> run_ok (run_of v) = true.
Proof.
  intros Hv. unfold run_of. destruct (v =? 0) eqn:E; [reflexivity |].
  apply Z.eqb_neq in E.
  destruct (Itoa_pos v ltac:(lia)) as (Hne & Hall & _).
  cbn [run_ok]. apply String.eqb_neq in Hne. now rewrite Hne, Hall.
Qed.

Lemma run_of_value (v : Z) : 0 <= v -> run_value (run_of v) = v.
Proof.
  intros Hv. unfold run_of. destruct (v =? 0) eqn:E.
  - apply Z.eqb_eq in E. now subst v.
  - apply Z.eqb_neq in E. cbn [run_value]. apply Itoa_pos. lia.
Qed.

Lemma parts_of_ok (d : Duration) : nonneg d -> parts_ok (parts_of d) = true.
Proof.
  intros (Hy & Hmo & Hw & Hd & Hh & Hmi & Hs).
  unfold parts_ok, parts_of.
  cbn [yearRun monthRun weekRun dayRun timeParts].
  rewrite !run_of_ok by assumption.
  destruct (HasTimePart d); cbn [time_ok hourRun minuteRun secondRun];
    [| reflexivity].
  now rewrite !run_of_ok by assumption.
Qed.

Lemma parts_of_fields (d : Duration) : nonneg d -> fields_of (parts_of d) = d.
Proof.
  intros (Hy & Hmo & Hw & Hd & Hh & Hmi & Hs).
  destruct d as [y mo w dy h mi s].
  unfold fields_of, parts_of, HasTimePart.
  cbn [Years Months Weeks Days Hours Minutes Seconds] in *.
  cbn [yearRun monthRun weekRun dayRun timeParts].
  rewrite !run_of_value by assumption.
  destruct (h =? 0) eqn:Eh, (mi =? 0) eqn:Em, (s =? 0) eqn:Es;
    cbn [negb orb time_run hourRun minuteRun secondRun run_value];
    rewrite ?run_of_value by assumption; try reflexivity.
  apply Z.eqb_eq in Eh, Em, Es. now subst.
Qed.

(** Printing then parsing gives the fields back, whenever they are
    non-negative values of [int]. *)
Lemma String_FromString (d : Duration) :
  nonneg d -> int_fields d ->
  Duration_String d = Ok (render (parts_of d)) /\
  FromString (render (parts_of d)) = Ok d.
Proof.
  intros Hnn Hint. split.
  - now rewrite Duration_String_format, format_render.
  - pose proof (FromString_render "" "" (parts_of d) eq_refl
                  (parts_of_ok d Hnn) eq_refl) as H.
    rewrite append_nil_r, (parts_of_fields d Hnn) in H.
    cbn [append] in H. apply H.
    unfold parts_fit. rewrite (parts_of_fields d Hnn).
    destruct Hint as (Hy & Hmo & Hw & Hd & Hh & Hmi & Hs).
    unfold Mach.in_int64, Mach.maxInt in *.
    repeat (apply andb_true_iff; split); apply Z.leb_le; lia.
Qed.

(** *** int64 arithmetic *)

Lemma wrap64_range (z : Z) : Mach.in_int64 (Mach.wrap64 z).
Proof.
  unfold Mach.in_int64, Mach.wrap64, Mach.minInt64, Mach.maxInt64, Mach.two64.
  pose proof (Z.mod_pos_bound (z - -9223372036854775808)
                18446744073709551616 ltac:(lia)).
  lia.
Qed.

Lemma wrap64_id (z : Z) : Mach.in_int64 z -> Mach.wrap64 z = z.
Proof.
  unfold Mach.in_int64, Mach.wrap64, Mach.minInt64, Mach.maxInt64, Mach.two64.
  intros H. rewrite Z.mod_small by lia. lia.
Qed.

Lemma wrap64_eqm (a b : Z) :
  a mod Mach.two64 = b mod Mach.two64 -> Mach.wrap64 a = Mach.wrap64 b.
Proof.
  unfold Mach.wrap64. intros H.
  rewrite (Zminus_mod a), (Zminus_mod b), H. reflexivity.
Qed.

Lemma wrap64_mod (z : Z) : Mach.wrap64 z mod Mach.two64 = z mod Mach.two64.
Proof.
  unfold Mach.wrap64.
  rewrite Zplus_mod, Zmod_mod, <- Zplus_mod.
  f_equal. lia.
Qed.

Lemma wrap64_unique (x y : Z) :
  Mach.in_int64 x -> x mod Mach.two64 = y mod Mach.two64 ->
  x = Mach.wrap64 y.
Proof.
  intros Hx H. rewrite <- (wrap64_id x Hx). now apply wrap64_eqm.
Qed.

(** [int64] sums and products agree with the exact ones modulo [2^64]. *)
Lemma addD_eqm (a b a' b' : Z) :
  a mod Mach.two64 = a' mod Mach.two64 ->
  b mod Mach.two64 = b' mod Mach.two64 ->
  GoTime.addD a b mod Mach.two64 = (a' + b') mod Mach.two64.
Proof.
  intros Ha Hb. unfold GoTime.addD.
  now rewrite wrap64_mod, Zplus_mod, Ha, Hb, <- Zplus_mod.
Qed.

Lemma mulD_eqm (a b a' b' : Z) :
  a mod Mach.two64 = a' mod Mach.two64 ->
  b mod Mach.two64 = b' mod Mach.two64 ->
  GoTime.mulD a b mod Mach.two64 = (a' * b') mod Mach.two64.
Proof.
  intros Ha Hb. unfold GoTime.mulD.
  now rewrite wrap64_mod, Zmult_mod, Ha, Hb, <- Zmult_mod.
Qed.

Lemma toDuration_eqm (n : Z) :
  GoTime.toDuration n mod Mach.two64 = n mod Mach.two64.
Proof. apply wrap64_mod. Qed.

Ltac eqm64 :=
  repeat match goal with
         | |- GoTime.addD _ _ mod _ = _ => apply addD_eqm
         | |- GoTime.mulD _ _ mod _ = _ => apply mulD_eqm
         | |- GoTime.toDuration _ mod _ = _ => apply toDuration_eqm
         | |- ?x mod _ = ?x mod _ => reflexivity
         end.

(** *** The estimated span *)

(** The code computes the table of section 4.3 in [int64]: its result is
    the exact sum reduced to 64 bits. *)
Lemma ToEstimatedDuration_wrap (d : Duration) :
  ToEstimatedDuration d = Mach.wrap64 (estimated_exact d).
Proof.
  apply wrap64_unique; [apply wrap64_range |].
  replace (estimated_exact d) with
    (0 + GoTime.Hour * 24 * 365 * Years d + GoTime.Hour * 24 * 30 * Months d
     + GoTime.Hour * 24 * 7 * Weeks d + GoTime.Hour * 24 * Days d
     + GoTime.Hour * Hours d + GoTime.Minute * Minutes d
     + GoTime.Second * Seconds d)
    by (unfold estimated_exact; ring).
  unfold ToEstimatedDuration. eqm64.
Qed.

Lemma ToEstimatedDuration_exact (d : Duration) :
  Mach.in_int64 (estimated_exact d) ->
  ToEstimatedDuration d = estimated_exact d.
Proof.
  intros H. rewrite ToEstimatedDuration_wrap. now apply wrap64_id.
Qed.

(** *** The calendar *)

Lemma check_from_spec (n : nat) :
  forall r0, check_from n r0 = true ->
  forall r, r0 <= r < r0 + Z.of_nat n -> cycle_ok r = true.
Proof.
  induction n as [| n IH]; intros r0 H r Hr.
  - simpl in Hr. lia.
  - cbn [check_from] in H. apply andb_true_iff in H as [H0 H1].
    destruct (Z.eq_dec r r0) as [-> | Hne]; [exact H0 |].
    apply (IH (r0 + 1) H1). lia.
Qed.

(** Every day of the 400-year cycle, checked by evaluation. *)
Lemma cycle_checked : check_from (Z.to_nat 146097) 0 = true.
Proof. vm_compute. reflexivity. Qed.

Lemma cycle_ok_all (r : Z) : 0 <= r < 146097 -> cycle_ok r = true.
Proof.
  intros Hr. apply (check_from_spec _ 0 cycle_checked).
  rewrite Z2Nat.id by lia. lia.
Qed.

Lemma daysSinceEpoch_shift (q y : Z) :
  GoTime.daysSinceEpoch (400 * q + y) = 146097 * q + GoTime.daysSinceEpoch y.
Proof.
  unfold GoTime.daysSinceEpoch. cbv zeta.
  replace (400 * q + y - 1) with (y - 1 + q * 400) by lia.
  generalize (y - 1). intros z.
  assert (H4 : (z + q * 400) / 4 = z / 4 + q * 100)
    by (replace (z + q * 400) with (z + (q * 100) * 4) by lia;
        apply Z.div_add; lia).
  assert (H100 : (z + q * 400) / 100 = z / 100 + q * 4)
    by (replace (z + q * 400) with (z + (q * 4) * 100) by lia;
        apply Z.div_add; lia).
  assert (H400 : (z + q * 400) / 400 = z / 400 + q)
    by (apply Z.div_add; lia).
  rewrite H4, H100, H400. lia.
Qed.

Lemma isLeap_shift (q y : Z) : GoTime.isLeap (400 * q + y) = GoTime.isLeap y.
Proof.
  unfold GoTime.isLeap.
  replace ((400 * q + y) mod 4) with (y mod 4)
    by (replace (400 * q + y) with (y + (q * 100) * 4) by lia;
        now rewrite Z.mod_add by lia).
  replace ((400 * q + y) mod 100) with (y mod 100)
    by (replace (400 * q + y) with (y + (q * 4) * 100) by lia;
        now rewrite Z.mod_add by lia).
  replace ((400 * q + y) mod 400) with (y mod 400)
    by (replace (400 * q + y) with (y + q * 400) by lia;
        now rewrite Z.mod_add by lia).
  reflexivity.
Qed.

(** The date of a day number is a date of that day number. *)
Lemma civil_roundtrip (n : Z) :
  let '(y, mo, dd) := GoTime.civil n in
  1 <= mo <= 12 /\ daysOfCivil y mo dd = n.
Proof.
  unfold GoTime.civil. cbv zeta.
  pose proof (Z.mod_pos_bound (n + 719162) 146097 ltac:(lia)) as Hr.
  pose proof (cycle_ok_all _ Hr) as Hc. unfold cycle_ok in Hc.
  destruct (GoTime.dateInCycle ((n + 719162) mod 146097)) as [[y mo] dd].
  apply andb_true_iff in Hc as [Hc He].
  apply andb_true_iff in Hc as [H1 H12].
  apply Z.leb_le in H1, H12. apply Z.eqb_eq in He.
  split; [lia |].
  unfold daysOfCivil in *. cbv zeta in *.
  rewrite daysSinceEpoch_shift, isLeap_shift.
  pose proof (Z.div_mod (n + 719162) 146097 ltac:(lia)).
  destruct (GoTime.isLeap y && (3 <=? mo)); lia.
Qed.

(** *** Instants *)

Lemma saturate_range (z : Z) : Mach.in_int64 (GoTime.saturate z).
Proof.
  unfold GoTime.saturate, GoTime.minDuration, GoTime.maxDuration,
    Mach.in_int64, Mach.minInt64, Mach.maxInt64.
  destruct (z <? -9223372036854775808) eqn:E1; [lia |].
  destruct (9223372036854775807 <? z) eqn:E2; [lia |].
  apply Z.ltb_ge in E1, E2. lia.
Qed.

Lemma saturate_id (z : Z) : Mach.in_int64 z -> GoTime.saturate z = z.
Proof.
  unfold GoTime.saturate, GoTime.minDuration, GoTime.maxDuration,
    Mach.in_int64, Mach.minInt64, Mach.maxInt64.
  intros H.
  destruct (z <? -9223372036854775808) eqn:E1; [apply Z.ltb_lt in E1; lia |].
  destruct (9223372036854775807 <? z) eqn:E2; [apply Z.ltb_lt in E2; lia |].
  reflexivity.
Qed.

(** [time.Date] builds an instant without a monotonic reading, in the
    location it is given, with its nanoseconds within the second. *)
Lemma Date_shape (y mo dd h mi s ns : Z) (l : GoTime.Location) :
  GoTime.mono (GoTime.Date y mo dd h mi s ns l) = None /\
  GoTime.loc (GoTime.Date y mo dd h mi s ns l) = l /\
  GoTime.nsec (GoTime.Date y mo dd h mi s ns l) = ns mod 1000000000.
Proof.
  unfold GoTime.Date, GoTime.norm. cbv beta iota zeta.
  destruct (GoTime.lookup l _) as [[o st] en]. cbn. auto.
Qed.

Lemma AddDate_shape (t : GoTime.Time) (y m d : Z) :
  GoTime.mono (GoTime.AddDate t y m d) = None /\
  GoTime.loc (GoTime.AddDate t y m d) = GoTime.loc t /\
  0 <= GoTime.nsec (GoTime.AddDate t y m d) < 1000000000.
Proof.
  unfold GoTime.AddDate.
  destruct (GoTime.DateOf t) as [[year month] day].
  destruct (GoTime.Clock t) as [[hour min] sec].
  destruct (Date_shape (year + y) (month + m) (day + d) hour min sec
              (GoTime.nsec t) (GoTime.loc t)) as (H1 & H2 & H3).
  rewrite H1, H2, H3. repeat split; try reflexivity;
    apply Z.mod_pos_bound; lia.
Qed.

Lemma Add_shape (t : GoTime.Time) (d : Z) :
  (GoTime.mono t = None -> GoTime.mono (GoTime.Add t d) = None) /\
  GoTime.loc (GoTime.Add t d) = GoTime.loc t.
Proof.
  unfold GoTime.Add. cbn. split; [| reflexivity]. now intros ->.
Qed.

Lemma elapsed_Add (t u : GoTime.Time) (d : Z) :
  GoTime.elapsed (GoTime.Add t d) u = GoTime.elapsed t u + d.
Proof.
  unfold GoTime.elapsed, GoTime.Add. cbn.
  pose proof (Z.div_mod (GoTime.nsec t + d) 1000000000 ltac:(lia)). lia.
Qed.

Lemma Sub_wall (t u : GoTime.Time) :
  GoTime.mono t = None -> GoTime.Sub t u = GoTime.saturate (GoTime.elapsed t u).
Proof. unfold GoTime.Sub. now intros ->. Qed.

(** The instant the code aims at carries no monotonic reading, so the
    difference is taken on the wall clock. *)
Lemma targetTime_mono (d : Duration) (from : GoTime.Time) :
  GoTime.mono (targetTime d from) = None.
Proof.
  unfold targetTime. cbv zeta.
  repeat apply Add_shape. apply AddDate_shape.
Qed.

Lemma ToDuration_saturate (d : Duration) (from : GoTime.Time) :
  ToDuration d from = GoTime.saturate (GoTime.elapsed (targetTime d from) from).
Proof. unfold ToDuration. apply Sub_wall, targetTime_mono. Qed.

(** Where nothing overflows the code aims at the instant of the plain
    calendar arithmetic. *)
Lemma targetTime_stepwise (d : Duration) (from : GoTime.Time) :
  nonneg d ->
  7 * Weeks d <= Mach.maxInt ->
  Hours d * GoTime.Hour <= Mach.maxInt64 ->
  Minutes d * GoTime.Minute <= Mach.maxInt64 ->
  Seconds d * GoTime.Second <= Mach.maxInt64 ->
  targetTime d from = stepwise_target d from.
Proof.
  intros (Hy & Hmo & Hw & Hd & Hh & Hmi & Hs) H7 HH HM HS.
  unfold targetTime, stepwise_target, Mach.wrapInt,
    GoTime.mulD, GoTime.toDuration. cbv zeta.
  unfold GoTime.Hour, GoTime.Minute, GoTime.Second, GoTime.Millisecond,
    GoTime.Microsecond, GoTime.Nanosecond, Mach.maxInt, Mach.maxInt64 in *.
  rewrite (wrap64_id (7 * Weeks d)),
          (wrap64_id (Hours d)), (wrap64_id (Minutes d)),
          (wrap64_id (Seconds d))
    by (unfold Mach.in_int64, Mach.minInt64, Mach.maxInt64; lia).
  rewrite !wrap64_id
    by (unfold Mach.in_int64, Mach.minInt64, Mach.maxInt64; lia).
  reflexivity.
Qed.

(** *** Calendar days in a location with a fixed offset *)

(** [time.Date] on fields that need no normalising. *)
Lemma Date_fixed (o y mo dd h mi s ns : Z) (l : GoTime.Location) :
  (forall sec, GoTime.lookup l sec = (o, GoTime.alpha, GoTime.omega)) ->
  1 <= mo <= 12 -> 0 <= h < 24 -> 0 <= mi < 60 -> 0 <= s < 60 ->
  0 <= ns < 1000000000 ->
  GoTime.Date y mo dd h mi s ns l =
  GoTime.mkTime
    (daysOfCivil y mo dd * GoTime.secondsPerDay + (h * 3600 + mi * 60 + s) - o)
    ns None l.
Proof.
  intros Hl Hmo Hh Hmi Hs Hns.
  unfold GoTime.Date, GoTime.norm, daysOfCivil.
  rewrite (Z.div_small (mo - 1) 12), (Z.mod_small (mo - 1) 12) by lia.
  rewrite (Z.div_small ns), (Z.mod_small ns) by lia.
  rewrite !Z.add_0_r.
  rewrite (Z.div_small s), (Z.mod_small s) by lia.
  rewrite !Z.add_0_r.
  rewrite (Z.div_small mi), (Z.mod_small mi) by lia.
  rewrite !Z.add_0_r.
  rewrite (Z.div_small h), (Z.mod_small h) by lia.
  rewrite !Z.add_0_r.
  cbv beta iota zeta.
  replace (mo - 1 + 1) with mo by lia.
  rewrite !Hl.
  destruct (o =? 0) eqn:Eo.
  - apply Z.eqb_eq in Eo. subst o. f_equal. lia.
  - now destruct (_ || _).
Qed.

Lemma clock_fields (L : Z) :
  let s := L mod GoTime.secondsPerDay in
  0 <= s / 3600 < 24 /\ 0 <= (s mod 3600) / 60 < 60 /\ 0 <= s mod 60 < 60 /\
  s / 3600 * 3600 + (s mod 3600) / 60 * 60 + s mod 60 = s.
Proof.
  unfold GoTime.secondsPerDay. cbv zeta.
  pose proof (Z.mod_pos_bound L 86400 ltac:(lia)) as Hs.
  generalize dependent (L mod 86400). intros s Hs.
  pose proof (Z.div_mod s 3600 ltac:(lia)) as E1.
  pose proof (Z.mod_pos_bound s 3600 ltac:(lia)) as B1.
  pose proof (Z.div_mod (s mod 3600) 60 ltac:(lia)) as E2.
  pose proof (Z.mod_pos_bound (s mod 3600) 60 ltac:(lia)) as B2.
  pose proof (Z.mod_pos_bound s 60 ltac:(lia)) as B3.
  assert (E3 : (s mod 3600) mod 60 = s mod 60).
  { rewrite E1 at 2.
    replace (3600 * (s / 3600) + s mod 3600)
      with (s mod 3600 + (s / 3600 * 60) * 60) by lia.
    now rewrite Z.mod_add by lia. }
  assert (0 <= s / 3600 < 24)
    by (split; [apply Z.div_pos; lia | apply Z.div_lt_upper_bound; lia]).
  assert (0 <= (s mod 3600) / 60 < 60)
    by (split; [apply Z.div_pos; lia | apply Z.div_lt_upper_bound; lia]).
  repeat split; try lia.
Qed.

Lemma daysOfCivil_add (y mo dd a : Z) :
  daysOfCivil y mo (dd + a) = daysOfCivil y mo dd + a.
Proof. unfold daysOfCivil. cbv zeta. lia. Qed.

(** Where the offset never changes, adding calendar days moves the
    instant by that many days of 86400 seconds. *)
Lemma AddDate_days_fixed (t : GoTime.Time) (a : Z) :
  fixed_offset (GoTime.loc t) -> 0 <= GoTime.nsec t < 1000000000 ->
  GoTime.AddDate t 0 0 a =
  GoTime.mkTime (GoTime.unixSec t + a * GoTime.secondsPerDay)
                (GoTime.nsec t) None (GoTime.loc t).
Proof.
  intros [o Hl] Hns.
  unfold GoTime.AddDate, GoTime.DateOf, GoTime.Clock, GoTime.localSec.
  rewrite Hl.
  set (L := GoTime.unixSec t + o).
  pose proof (civil_roundtrip (L / GoTime.secondsPerDay)) as Hc.
  destruct (GoTime.civil (L / GoTime.secondsPerDay)) as [[y mo] dd].
  destruct Hc as [Hmo Hdays].
  destruct (clock_fields L) as (Hh & Hmi & Hs & Hsum).
  cbv zeta in Hh, Hmi, Hs, Hsum.
  rewrite !Z.add_0_r.
  rewrite (Date_fixed o) by assumption.
  rewrite daysOfCivil_add, Hdays.
  f_equal.
  unfold GoTime.secondsPerDay in *.
  pose proof (Z.div_mod L 86400 ltac:(lia)). lia.
Qed.

Lemma AddDate_days_merge (t : GoTime.Time) (a b : Z) :
  fixed_offset (GoTime.loc t) -> 0 <= GoTime.nsec t < 1000000000 ->
  GoTime.AddDate (GoTime.AddDate t 0 0 a) 0 0 b = GoTime.AddDate t 0 0 (a + b).
Proof.
  intros Hl Hns.
  rewrite (AddDate_days_fixed t a), (AddDate_days_fixed t (a + b))
    by assumption.
  rewrite AddDate_days_fixed by (cbn; assumption).
  cbn. f_equal. lia.
Qed.

(** In such a location the weeks and the days can be added in one step,
    as section 4.4 has it. *)
Lemma stepwise_spec_target (d : Duration) (from : GoTime.Time) :
  fixed_offset (GoTime.loc from) ->
  stepwise_target d from = spec_target d from.
Proof.
  intros Hl. unfold stepwise_target, spec_target. cbv zeta.
  destruct (AddDate_shape from (Years d) (Months d) 0) as (_ & Hloc & Hns).
  rewrite AddDate_days_merge; [reflexivity | now rewrite Hloc | exact Hns].
Qed.

(* ================================================================== *)
(** ** The parser *)

(** C1, as amended.  On every input that holds a word of the grammar
    [P [nY] [nM] [nW] [nD] [T [nH] [nM] [nS]]] - after text without a [P]
    and before text that cannot be taken for more of the word - and whose
    digit runs are all representable as an [int], [FromString] returns
    the Duration whose fields are the numbers of the units present, every
    absent unit being zero.  In particular ["P1Y2M3W4DT3H4M5S"] gives
    1, 2, 3, 4, 3, 4, 5 and ["P1W"] gives one week and nothing else. *)
Theorem FromString_populates_fields :
  (forall (pre post : string) (p : Parts),
      no_P pre = true -> parts_ok p = true -> trailing_ok p post = true ->
      parts_fit p = true ->
      FromString (pre ++ render p ++ post) = Ok (fields_of p)) /\
  FromString "P1Y2M3W4DT3H4M5S" = Ok (mkDuration 1 2 3 4 3 4 5) /\
  FromString "P1W" = Ok (mkDuration 0 0 1 0 0 0 0).
Proof.
  split; [| split; reflexivity].
  intros pre post p. apply FromString_render.
Qed.

Lemma FromString_populates_fields_witness :
  let p := mkParts (Some "10") None None (Some "3")
                   (Some (mkTimeParts None None (Some "5"))) in
  render p = "P10Y3DT5S" /\
  FromString ("ab" ++ render p ++ "xx") = Ok (mkDuration 10 0 0 3 0 0 5).
Proof.
  split; [reflexivity |].
  apply (proj1 FromString_populates_fields "ab" "xx"
           (mkParts (Some "10") None None (Some "3")
                    (Some (mkTimeParts None None (Some "5")))));
    reflexivity.
Defined.

(** C1, as stated, fails where a digit run is beyond [int]: the input
    ["P9223372036854775808Y"] is a word of the grammar, and [FromString]
    returns the range error of [Atoi] and no Duration. *)
Lemma FromString_populates_counterexample :
  let p := mkParts (Some "9223372036854775808") None None None None in
  parts_ok p = true /\
  render p = "P9223372036854775808Y" /\
  FromString (render p) <> Ok (fields_of p) /\
  FromString (render p) =
  Err (ErrNum (mkNumError "Atoi" "9223372036854775808" ErrRange)).
Proof.
  cbv zeta. repeat split; try reflexivity.
  vm_compute. discriminate.
Qed.

(** C5, as amended.  The match is not anchored: it starts at the first
    [P] of the input, wherever that is.  The text before the first [P]
    and the text that the match leaves unconsumed are both ignored: the
    input is that leading text, the matched word of the grammar and the
    unconsumed text, and parsing it gives what parsing the matched word
    alone gives. *)
Theorem FromString_match_unanchored (pre rest : string) :
  no_P pre = true ->
  Regexp.FindStringStart full (pre ++ String "P" rest)
  = Some (String.length pre) /\
  let p := fst (scan_parts rest) in
  let left := snd (scan_parts rest) in
  pre ++ String "P" rest = pre ++ render p ++ left /\
  nth_error (Regexp.FindStringSubmatch full (pre ++ String "P" rest)) 0
  = Some (render p) /\
  FromString (pre ++ String "P" rest) = FromString (render p).
Proof.
  intros Hpre. cbv zeta.
  destruct (scan_parts_sound rest) as [Hok Hsplit].
  split; [| split; [| split]].
  - unfold Regexp.FindStringStart.
    now rewrite find_skip, find_P by exact Hpre.
  - now rewrite Hsplit.
  - unfold Regexp.FindStringSubmatch.
    now rewrite find_skip, find_P by exact Hpre.
  - rewrite FromString_scan by exact Hpre. cbv zeta.
    destruct (scan_parts_render (fst (scan_parts rest)) "" Hok eq_refl)
      as (body & Hbody & Hscan).
    rewrite append_nil_r in Hbody.
    rewrite Hbody.
    pose proof (FromString_scan "" body eq_refl) as H.
    cbn [append] in H. rewrite H. cbv zeta.
    now rewrite Hscan.
Qed.

Lemma FromString_match_unanchored_witness :
  Regexp.FindStringStart full "since P1Y2D, roughly" = Some 6%nat /\
  nth_error (Regexp.FindStringSubmatch full "since P1Y2D, roughly") 0
  = Some "P1Y2D" /\
  FromString "since P1Y2D, roughly" = FromString "P1Y2D".
Proof.
  destruct (FromString_match_unanchored "since " "1Y2D, roughly" eq_refl)
    as (H1 & _ & H2 & H3).
  split; [exact H1 | split; [exact H2 | exact H3]].
Defined.

(** C5, as stated, fails on ["xP1Y"]: the input matches, the match
    starts at offset 1 and not at the first character, and the leading
    ["x"] is ignored. *)
Lemma FromString_anchored_counterexample :
  Regexp.MatchString full "xP1Y" = true /\
  Regexp.FindStringStart full "xP1Y" = Some 1%nat /\
  Regexp.FindStringStart full "xP1Y" <> Some 0%nat /\
  FromString "xP1Y" = Ok (mkDuration 1 0 0 0 0 0 0).
Proof. repeat split; try reflexivity. discriminate. Qed.

(** C6, as amended.  On every input without any [P] (["asdf"] is one)
    [FromString] fails with [ErrBadFormat]; and it returns [ErrBadFormat]
    exactly when the pattern has no match in the input, which is exactly
    when the input has no [P]. *)
Theorem FromString_bad_format (s : string) :
  (no_P s = true -> FromString s = Err ErrBadFormat) /\
  (FromString s = Err ErrBadFormat <-> Regexp.MatchString full s = false) /\
  (Regexp.MatchString full s = false <-> no_P s = true) /\
  FromString "asdf" = Err ErrBadFormat.
Proof.
  rewrite MatchString_full.
  split; [apply FromString_no_P |].
  split; [| split; [| reflexivity]].
  - destruct (FromString_cases s) as [[H E] | [H [[d E] | [n E]]]];
      rewrite H, E; cbn; split; congruence.
  - destruct (no_P s); cbn; split; congruence.
Qed.

Lemma FromString_bad_format_witness :
  FromString "1Y2M" = Err ErrBadFormat /\
  Regexp.MatchString full "1Y2M" = false.
Proof.
  split.
  - apply (proj1 (FromString_bad_format "1Y2M")). reflexivity.
  - apply (proj1 (proj1 (proj2 (FromString_bad_format "1Y2M")))).
    apply (proj1 (FromString_bad_format "1Y2M")). reflexivity.
Defined.

(** C6, as stated, fails on ["xP1Y"]: the input does not start with the
    marker [P], and [FromString] returns a Duration, not [ErrBadFormat]. *)
Lemma FromString_leading_marker_counterexample :
  starts_with_P "xP1Y" = false /\
  FromString "xP1Y" = Ok (mkDuration 1 0 0 0 0 0 0) /\
  FromString "xP1Y" <> Err ErrBadFormat.
Proof. repeat split; try reflexivity. discriminate. Qed.

(** C8.  Whenever the text of a named group of the match is a digit run
    beyond the largest [int], [FromString] returns an error, the range
    error of [Atoi]: it neither panics nor returns a Duration. *)
Theorem FromString_overflow_error
        (s : string) (i : nat) (name part : string) :
  nth_error (Regexp.SubexpNames full) i = Some name ->
  name <> "" ->
  nth_error (Regexp.FindStringSubmatch full s) i = Some part ->
  Mach.maxInt < Strconv.digits_value part 0 ->
  exists e, FromString s = Err (ErrNum e) /\ neErr e = ErrRange.
Proof.
  intros Hname Hnn Hpart Hbig.
  destruct (split_at_P s) as [H | (pre & rest & -> & Hpre)].
  - unfold Regexp.FindStringSubmatch in Hpart.
    rewrite find_no_P in Hpart by exact H. now destruct i.
  - rewrite FromString_scan by exact Hpre. cbv zeta.
    unfold Regexp.FindStringSubmatch in Hpart.
    rewrite find_skip, find_P in Hpart by exact Hpre.
    set (p := fst (scan_parts rest)) in *.
    assert (Hfit : parts_fit p = false).
    { unfold parts_fit, fields_of. cbv zeta.
      cbn [Years Months Weeks Days Hours Minutes Seconds].
      assert (Hv : forall run, part = Regexp.cap_text run ->
                               (run_value run <=? Mach.maxInt) = false).
      { intros run ->. apply Z.leb_gt.
        destruct run; [exact Hbig | cbn in Hbig; unfold Mach.maxInt,
          Mach.maxInt64 in Hbig; lia]. }
      unfold caps_of in Hpart. cbn [map] in Hpart.
      do 16 (destruct i as [| i];
             [cbn in Hname, Hpart; injection Hname as <-;
              injection Hpart as Hpart;
              first [ now elim Hnn
                    | rewrite (Hv _ (eq_sym Hpart));
                      rewrite ?andb_false_r; reflexivity ] |]).
      now destruct i. }
    rewrite Hfit. eexists. split; reflexivity.
Qed.

Lemma FromString_overflow_error_witness :
  exists e, FromString "P1Y9223372036854775808M" = Err (ErrNum e)
            /\ neErr e = ErrRange.
Proof.
  apply (FromString_overflow_error "P1Y9223372036854775808M" 4
           "month" "9223372036854775808").
  - reflexivity.
  - discriminate.
  - reflexivity.
  - reflexivity.
Defined.

(** C10.  [FromString] returns [ErrBadFormat] if and only if its input has
    no [P].  On an input with a [P] anywhere - ["xxP"] and ["xP1Y"]
    among them - the pattern matches and [FromString] returns a Duration
    or the conversion error of [Atoi], and nothing else. *)
Theorem ErrBadFormat_iff_no_P (s : string) :
  (FromString s = Err ErrBadFormat <-> no_P s = true) /\
  (no_P s = false ->
   Regexp.MatchString full s = true /\
   ((exists d, FromString s = Ok d) \/
    (exists e, FromString s = Err (ErrNum e)))) /\
  FromString "xxP" = Ok zeroDuration /\
  FromString "xP1Y" = Ok (mkDuration 1 0 0 0 0 0 0).
Proof.
  split; [| split; [| split; reflexivity]].
  - destruct (FromString_cases s) as [[H E] | [H [[d E] | [n E]]]];
      rewrite H, E; split; congruence.
  - intros Hs. split; [now rewrite MatchString_full, Hs |].
    destruct (FromString_cases s) as [[H E] | [H [[d E] | [n E]]]];
      [congruence | eauto | eauto].
Qed.

Lemma ErrBadFormat_iff_no_P_witness :
  no_P "xP99999999999999999999Y" = false /\
  Regexp.MatchString full "xP99999999999999999999Y" = true /\
  ((exists d, FromString "xP99999999999999999999Y" = Ok d) \/
   (exists e, FromString "xP99999999999999999999Y" = Err (ErrNum e))).
Proof.
  split; [reflexivity |].
  apply (proj1 (proj2 (ErrBadFormat_iff_no_P
                         "xP99999999999999999999Y"))).
  reflexivity.
Defined.

(* ================================================================== *)
(** ** The formatter *)

(** C2.  For every Duration - with non-negative fields in particular -
    [String] writes [P], then value and letter of each of Years, Months,
    Weeks, Days that is not zero, in that order, then [T] if and only if
    one of Hours, Minutes, Seconds is not zero, then value and letter of
    each of those that is not zero, in that order; the value of a
    positive field is written as the run of decimal digits that reads as
    that number.  So the Duration of all zeros prints as ["P"], and one
    hour with two months as ["P2MT1H"]. *)
Theorem Duration_String_format_spec :
  (forall d : Duration, Duration_String d = Ok (format_spec d)) /\
  (forall v : Z, 0 < v ->
      Strconv.Itoa v <> "" /\
      Strconv.all_digits (Strconv.Itoa v) = true /\
      Strconv.digits_value (Strconv.Itoa v) 0 = v) /\
  Duration_String zeroDuration = Ok "P" /\
  Duration_String (mkDuration 0 2 0 0 1 0 0) = Ok "P2MT1H".
Proof.
  split; [exact Duration_String_format |].
  split; [exact Itoa_pos | split; reflexivity].
Qed.

Lemma Duration_String_format_spec_witness :
  Duration_String (mkDuration 1 0 0 2 3 4 5) = Ok "P1Y2DT3H4M5S" /\
  Strconv.digits_value (Strconv.Itoa 2026) 0 = 2026.
Proof.
  split.
  - rewrite (proj1 Duration_String_format_spec). reflexivity.
  - apply (proj1 (proj2 Duration_String_format_spec) 2026). reflexivity.
Defined.

(** C7.  For every Duration whose fields are non-negative values of
    [int], with at most one non-zero field among years, months, weeks and
    days and at most one among hours, minutes and seconds, [String]
    returns a string on which [FromString] succeeds and returns that very
    Duration. *)
Theorem String_FromString_roundtrip (d : Duration) :
  nonneg d -> int_fields d -> one_per_group d ->
  exists s, Duration_String d = Ok s /\ FromString s = Ok d.
Proof.
  intros Hnn Hint _. exists (render (parts_of d)).
  now apply String_FromString.
Qed.

Lemma String_FromString_roundtrip_witness :
  exists s, Duration_String (mkDuration 0 2 0 0 0 0 45) = Ok s /\
            FromString s = Ok (mkDuration 0 2 0 0 0 0 45).
Proof.
  apply (String_FromString_roundtrip (mkDuration 0 2 0 0 0 0 45)).
  - unfold nonneg. cbn. lia.
  - unfold int_fields, Mach.in_int64, Mach.minInt64, Mach.maxInt64. cbn. lia.
  - unfold one_per_group. cbn. lia.
Defined.

(* ================================================================== *)
(** ** The resolvers *)

(** C4, as amended.  [ToEstimatedDuration] is the sum
    years*365*24h + months*30*24h + weeks*7*24h + days*24h + hours*1h +
    minutes*1min + seconds*1s reduced to [int64]: it equals that sum
    exactly whenever the sum is an [int64] number of nanoseconds, and it
    depends on the Duration alone.  One year, month, week, day, hour,
    minute and second give 365 days, 30 days, 7 days, 1 day, 1 hour,
    1 minute and 1 second. *)
Theorem ToEstimatedDuration_table :
  (forall d : Duration,
      ToEstimatedDuration d = Mach.wrap64 (estimated_exact d)) /\
  (forall d : Duration,
      Mach.in_int64 (estimated_exact d) ->
      ToEstimatedDuration d = estimated_exact d) /\
  ToEstimatedDuration (mkDuration 1 0 0 0 0 0 0) = 365 * (24 * GoTime.Hour) /\
  ToEstimatedDuration (mkDuration 0 1 0 0 0 0 0) = 30 * (24 * GoTime.Hour) /\
  ToEstimatedDuration (mkDuration 0 0 1 0 0 0 0) = 7 * (24 * GoTime.Hour) /\
  ToEstimatedDuration (mkDuration 0 0 0 1 0 0 0) = 24 * GoTime.Hour /\
  ToEstimatedDuration (mkDuration 0 0 0 0 1 0 0) = GoTime.Hour /\
  ToEstimatedDuration (mkDuration 0 0 0 0 0 1 0) = GoTime.Minute /\
  ToEstimatedDuration (mkDuration 0 0 0 0 0 0 1) = GoTime.Second.
Proof.
  split; [exact ToEstimatedDuration_wrap |].
  split; [exact ToEstimatedDuration_exact |].
  repeat split; reflexivity.
Qed.

Lemma ToEstimatedDuration_table_witness :
  ToEstimatedDuration (mkDuration 2 3 1 1 2 51 12) = 71549472000000000.
Proof.
  rewrite (proj1 (proj2 ToEstimatedDuration_table)
             (mkDuration 2 3 1 1 2 51 12)).
  - reflexivity.
  - unfold Mach.in_int64, Mach.minInt64, Mach.maxInt64. vm_compute.
    split; discriminate.
Defined.

(** C4, as stated, fails from 293 years on: for three hundred years the
    sum is more than an [int64] holds, and [ToEstimatedDuration] returns a
    negative span. *)
Lemma ToEstimatedDuration_counterexample :
  let d := mkDuration 300 0 0 0 0 0 0 in
  nonneg d /\ int_fields d /\
  estimated_exact d = 9460800000000000000 /\
  ToEstimatedDuration d = -8985944073709551616 /\
  ToEstimatedDuration d <> estimated_exact d.
Proof.
  cbv zeta. split; [| split; [| split; [| split]]].
  - unfold nonneg. cbn. lia.
  - unfold int_fields, Mach.in_int64, Mach.minInt64, Mach.maxInt64. cbn. lia.
  - reflexivity.
  - reflexivity.
  - vm_compute. discriminate.
Qed.

(** C3, as amended.  For every Duration with non-negative fields and
    every anchor, provided [7 * weeks] is an [int], hours, minutes and
    seconds times their unit are [int64] numbers of nanoseconds, and so is
    the time from the anchor to the instant aimed at: [ToDuration] is the
    exact time from the anchor to the instant obtained by one calendar
    step of years and months together, then [7 * weeks] calendar days,
    then [days] calendar days, then the hours, minutes and seconds as
    exact increments.  When the location of the anchor has a fixed
    offset, the two steps of calendar days are one step of
    [7 * weeks + days]. *)
Theorem ToDuration_exact_span (d : Duration) (from : GoTime.Time) :
  nonneg d ->
  7 * Weeks d <= Mach.maxInt ->
  Hours d * GoTime.Hour <= Mach.maxInt64 ->
  Minutes d * GoTime.Minute <= Mach.maxInt64 ->
  Seconds d * GoTime.Second <= Mach.maxInt64 ->
  Mach.in_int64 (GoTime.elapsed (stepwise_target d from) from) ->
  ToDuration d from = GoTime.elapsed (stepwise_target d from) from /\
  (fixed_offset (GoTime.loc from) ->
   ToDuration d from = GoTime.elapsed (spec_target d from) from).
Proof.
  intros Hnn H7 HH HM HS Hel.
  assert (E : ToDuration d from
              = GoTime.elapsed (stepwise_target d from) from).
  { rewrite ToDuration_saturate, targetTime_stepwise by assumption.
    now apply saturate_id. }
  split; [exact E |].
  intros Hl. now rewrite E, stepwise_spec_target.
Qed.

Lemma ToDuration_exact_span_witness :
  ToDuration (mkDuration 2 3 1 1 2 51 12) unixEpoch = 71635872000000000 /\
  GoTime.elapsed (spec_target (mkDuration 2 3 1 1 2 51 12) unixEpoch)
                 unixEpoch = 71635872000000000.
Proof.
  assert (Hnn : nonneg (mkDuration 2 3 1 1 2 51 12))
    by (unfold nonneg; cbn; lia).
  assert (H7 : 7 * Weeks (mkDuration 2 3 1 1 2 51 12) <= Mach.maxInt)
    by (vm_compute; discriminate).
  assert (HH : Hours (mkDuration 2 3 1 1 2 51 12) * GoTime.Hour
               <= Mach.maxInt64) by (vm_compute; discriminate).
  assert (HM : Minutes (mkDuration 2 3 1 1 2 51 12) * GoTime.Minute
               <= Mach.maxInt64) by (vm_compute; discriminate).
  assert (HS : Seconds (mkDuration 2 3 1 1 2 51 12) * GoTime.Second
               <= Mach.maxInt64) by (vm_compute; discriminate).
  assert (Hel : Mach.in_int64
                  (GoTime.elapsed
                     (stepwise_target (mkDuration 2 3 1 1 2 51 12) unixEpoch)
                     unixEpoch))
    by (unfold Mach.in_int64; vm_compute; split; discriminate).
  assert (Hfix : fixed_offset (GoTime.loc unixEpoch))
    by (exists 0; intros sec; reflexivity).
  pose proof (proj2 (ToDuration_exact_span _ unixEpoch Hnn H7 HH HM HS Hel)
                Hfix) as H.
  split; [vm_compute; reflexivity |].
  rewrite <- H. vm_compute. reflexivity.
Defined.

(** C3, as stated, fails where an increment overflows: three million
    hours are more nanoseconds than an [int64] holds, the product wraps to
    a negative span, and [ToDuration] returns that negative span instead
    of the time to the instant three million hours after the anchor. *)
Lemma ToDuration_counterexample :
  let d := mkDuration 0 0 0 0 3000000 0 0 in
  nonneg d /\ int_fields d /\
  GoTime.elapsed (spec_target d unixEpoch) unixEpoch = 10800000000000000000 /\
  ToDuration d unixEpoch = -7646744073709551616 /\
  ToDuration d unixEpoch <> GoTime.elapsed (spec_target d unixEpoch) unixEpoch.
Proof.
  cbv zeta. split; [| split; [| split; [| split]]].
  - unfold nonneg. cbn. lia.
  - unfold int_fields, Mach.in_int64, Mach.minInt64, Mach.maxInt64. cbn. lia.
  - vm_compute. reflexivity.
  - vm_compute. reflexivity.
  - vm_compute. discriminate.
Qed.

(** Where the offset changes, the two steps of calendar days need not be
    one: from 02:30 on 2024-03-03 in [springForward], a week and a day
    lead the code over the missing hour of 2024-03-10 to 01:30 on
    2024-03-11, an hour short of the instant eight calendar days on. *)
Lemma ToDuration_offset_change :
  let from := GoTime.Date 2024 3 3 2 30 0 0 springForward in
  let d := mkDuration 0 0 1 1 0 0 0 in
  GoTime.Clock from = (2, 30, 0) /\
  ToDuration d from = GoTime.elapsed (stepwise_target d from) from /\
  ToDuration d from = 684000 * GoTime.Second /\
  GoTime.elapsed (spec_target d from) from = 687600 * GoTime.Second.
Proof. vm_compute. repeat split; reflexivity. Qed.

(** C9.  The formatter and both resolvers return a value on every
    Duration: the template never fails to execute, so [String] never
    reaches its [panic], and [ToEstimatedDuration] and [ToDuration]
    return an [int64] number of nanoseconds. *)
Theorem formatter_and_resolvers_total (d : Duration) :
  (exists s, Template.Execute tmpl (dot_of d) = inl s /\
             Duration_String d = Ok s) /\
  (forall msg, Duration_String d <> Panic msg) /\
  (exists v, ToEstimatedDuration d = v /\ Mach.in_int64 v) /\
  (forall from, exists v, ToDuration d from = v /\ Mach.in_int64 v).
Proof.
  split; [| split; [| split]].
  - exists (format_spec d).
    split; [apply Execute_tmpl | apply Duration_String_format].
  - intros msg. rewrite Duration_String_format. discriminate.
  - eexists. split; [reflexivity |].
    rewrite ToEstimatedDuration_wrap. apply wrap64_range.
  - intros from. eexists. split; [reflexivity |].
    rewrite ToDuration_saturate. apply saturate_range.
Qed.

(* ================================================================== *)
(** ** Beyond the claims: the parser *)

Lemma run_value_nonneg (run : option string) :
  run_ok run = true -> 0 <= run_value run.
Proof.
  destruct run as [n |]; cbn [run_value]; [| lia].
  intros H. destruct (run_ok_some n H) as [_ Hall].
  now apply digits_value_lower.
Qed.

Lemma fields_of_nonneg (p : Parts) :
  parts_ok p = true -> nonneg (fields_of p).
Proof.
  intros H. destruct (parts_ok_runs p H) as (Hy & Hmo & Hw & Hd & Hh & Hmi & Hs).
  unfold nonneg, fields_of.
  cbn [Years Months Weeks Days Hours Minutes Seconds].
  repeat split; now apply run_value_nonneg.
Qed.

Lemma parts_fit_int (p : Parts) :
  parts_ok p = true -> parts_fit p = true -> int_fields (fields_of p).
Proof.
  intros Hok Hfit. pose proof (fields_of_nonneg p Hok) as Hnn.
  unfold parts_fit in Hfit. cbv zeta in Hfit.
  repeat (apply andb_true_iff in Hfit as [Hfit ?]).
  repeat match goal with H : (_ <=? _) = true |- _ => apply Z.leb_le in H end.
  destruct Hnn as (? & ? & ? & ? & ? & ? & ?).
  unfold int_fields, Mach.in_int64, Mach.minInt64, Mach.maxInt, Mach.maxInt64
    in *.
  repeat split; lia.
Qed.

(** What [FromString] returns has fields between zero and the largest
    [int]. *)
Lemma FromString_Ok_fields (s : string) (d : Duration) :
  FromString s = Ok d -> nonneg d /\ int_fields d.
Proof.
  destruct (split_at_P s) as [H | (pre & rest & -> & Hpre)].
  - rewrite FromString_no_P by exact H. discriminate.
  - rewrite FromString_scan by exact Hpre. cbv zeta.
    destruct (scan_parts_sound rest) as [Hok _].
    destruct (parts_fit (fst (scan_parts rest))) eqn:Hfit; [| discriminate].
    intros [= <-].
    split; [now apply fields_of_nonneg | now apply parts_fit_int].
Qed.

(** X1.  On every input [FromString] ends in one of three ways: a
    Duration all of whose fields are between zero and the largest [int],
    [ErrBadFormat], or the range error of [Atoi].  It never panics on
    [match[i]], never returns a syntax error, and never reaches the
    [default] branch of its [switch]. *)
Theorem FromString_outcomes (s : string) :
  (exists d, FromString s = Ok d /\ nonneg d /\ int_fields d) \/
  FromString s = Err ErrBadFormat \/
  (exists n, FromString s = Err (ErrNum (mkNumError "Atoi" n ErrRange))).
Proof.
  destruct (split_at_P s) as [H | (pre & rest & -> & Hpre)].
  - right. left. now apply FromString_no_P.
  - rewrite FromString_scan by exact Hpre. cbv zeta.
    destruct (scan_parts_sound rest) as [Hok _].
    destruct (parts_fit (fst (scan_parts rest))) eqn:Hfit.
    + left. eexists. split; [reflexivity |].
      split; [now apply fields_of_nonneg | now apply parts_fit_int].
    + right. right. eauto.
Qed.

(** X2.  A [T] with nothing after it changes nothing: a word of the
    grammar without a time part and the same word followed by [T] parse
    alike, to the same Duration or to the same error. *)
Theorem FromString_dangling_T (y mo w dy : option string) :
  parts_ok (date_only y mo w dy) = true ->
  FromString (render (date_only y mo w dy) ++ "T")
  = FromString (render (date_only y mo w dy)) /\
  render (date_only y mo w dy) ++ "T"
  = render (date_dangling_T y mo w dy).
Proof.
  intros Hok.
  assert (Hok' : parts_ok (date_dangling_T y mo w dy) = true).
  { unfold parts_ok, date_dangling_T, date_only in *.
    cbn [yearRun monthRun weekRun dayRun timeParts time_ok
         hourRun minuteRun secondRun run_ok] in *.
    now rewrite andb_true_r in *. }
  assert (Hr : render (date_only y mo w dy) ++ "T"
               = render (date_dangling_T y mo w dy)).
  { unfold render, date_only, date_dangling_T.
    cbn [yearRun monthRun weekRun dayRun timeParts time_text
         hourRun minuteRun secondRun unit_text append].
    now rewrite !append_assoc. }
  split; [| exact Hr].
  rewrite Hr.
  destruct (scan_parts_render _ "" Hok eq_refl) as (b1 & E1 & S1).
  destruct (scan_parts_render _ "" Hok' eq_refl) as (b2 & E2 & S2).
  rewrite append_nil_r in E1, E2. rewrite E1, E2.
  pose proof (FromString_scan "" b1 eq_refl) as H1.
  pose proof (FromString_scan "" b2 eq_refl) as H2.
  cbn [append] in H1, H2. rewrite H1, H2, S1, S2. reflexivity.
Qed.

Lemma FromString_dangling_T_witness :
  FromString "P3W4DT" = FromString "P3W4D".
Proof.
  apply (proj1 (FromString_dangling_T None None (Some "3") (Some "4")
                  eq_refl)).
Defined.

Lemma scan_run_miss (l : ascii) (s : string) :
  scan l s = None -> scan_run l s = (None, s).
Proof. unfold scan_run. now intros ->. Qed.

Lemma scan_time_no_T (s : string) :
  match s with
  | String c _ => Ascii.eqb "T" c = false
  | EmptyString => True
  end ->
  scan_time s = (None, s).
Proof.
  unfold scan_time. destruct s as [| c s']; [reflexivity |]. now intros ->.
Qed.

Lemma digit_run_head (n rest : string) :
  n <> "" -> Strconv.all_digits n = true ->
  match n ++ rest with
  | String c _ => Ascii.eqb "T" c = false
  | EmptyString => True
  end.
Proof.
  intros Hne Hall. destruct n as [| c n]; [congruence |].
  cbn [append]. cbn in Hall. apply andb_true_iff in Hall as [Hc _].
  destruct (Ascii.eqb "T" c) eqn:E; [| reflexivity].
  apply Ascii.eqb_eq in E. subst c. discriminate Hc.
Qed.

(** X3.  The units are read in the order of the pattern and nowhere
    else.  A time unit that no [T] comes before is not read: ["P<n>H"]
    and ["P<n>S"] parse to the zero Duration, whatever the run [n].  The
    letter [M] is months before the [T] and minutes after it.  A unit
    that comes after a later one is dropped: in ["P<a>M<b>Y"] the months
    are read and the years are not. *)
Theorem FromString_units_in_order (a b : string) :
  run_ok (Some a) = true -> run_ok (Some b) = true ->
  Strconv.digits_value a 0 <= Mach.maxInt ->
  FromString ("P" ++ b ++ "H") = Ok zeroDuration /\
  FromString ("P" ++ b ++ "S") = Ok zeroDuration /\
  FromString ("P" ++ a ++ "M")
  = Ok (mkDuration 0 (Strconv.digits_value a 0) 0 0 0 0 0) /\
  FromString ("PT" ++ a ++ "M")
  = Ok (mkDuration 0 0 0 0 0 (Strconv.digits_value a 0) 0) /\
  FromString ("P" ++ a ++ "M" ++ b ++ "Y")
  = Ok (mkDuration 0 (Strconv.digits_value a 0) 0 0 0 0 0).
Proof.
  intros Ha Hb Hfit.
  destruct (run_ok_some a Ha) as [Hane Haall].
  destruct (run_ok_some b Hb) as [Hbne Hball].
  assert (Hfit' : (Strconv.digits_value a 0 <=? Mach.maxInt) = true)
    by now apply Z.leb_le.
  assert (Hstray : forall l, Strconv.is_digit l = false ->
            l <> "Y"%char -> l <> "M"%char -> l <> "W"%char ->
            l <> "D"%char ->
            FromString ("P" ++ b ++ String l "") = Ok zeroDuration).
  { intros l Hl HY HM HW HD. cbn [append].
    pose proof (FromString_scan "" (b ++ String l "") eq_refl) as H.
    cbn [append] in H. rewrite H. clear H. cbv zeta.
    unfold scan_parts.
    rewrite !scan_run_miss by (apply scan_other; auto).
    rewrite scan_time_no_T by (now apply digit_run_head).
    reflexivity. }
  split; [apply Hstray; [reflexivity | discriminate ..] |].
  split; [apply Hstray; [reflexivity | discriminate ..] |].
  split; [| split].
  - pose proof (FromString_render "" ""
                  (mkParts None (Some a) None None None) eq_refl) as H.
    cbn [append] in H. unfold render in H.
    cbn [yearRun monthRun weekRun dayRun timeParts unit_text time_text
         append] in H.
    rewrite !append_nil_r in H. apply H.
    + unfold parts_ok. cbn [yearRun monthRun weekRun dayRun timeParts
        time_ok]. now rewrite Ha.
    + reflexivity.
    + unfold parts_fit, fields_of. cbn. now rewrite Hfit'.
  - pose proof (FromString_render "" ""
                  (mkParts None None None None
                     (Some (mkTimeParts None (Some a) None))) eq_refl) as H.
    cbn [append] in H. unfold render in H.
    cbn [yearRun monthRun weekRun dayRun timeParts unit_text time_text
         hourRun minuteRun secondRun append] in H.
    rewrite !append_nil_r in H. apply H.
    + unfold parts_ok. cbn [yearRun monthRun weekRun dayRun timeParts
        time_ok hourRun minuteRun secondRun]. now rewrite Ha.
    + reflexivity.
    + unfold parts_fit, fields_of. cbn. now rewrite Hfit'.
  - cbn [append].
    pose proof (FromString_scan "" (a ++ "M" ++ b ++ "Y") eq_refl) as H.
    cbn [append] in H. rewrite H. clear H. cbv zeta.
    unfold scan_parts.
    rewrite (scan_run_miss "Y")
      by (apply scan_other; auto; discriminate).
    assert (Hm : scan_run "M" (a ++ String "M" (b ++ "Y"))
                 = (Some a, b ++ "Y")).
    { unfold scan_run. now rewrite scan_hit. }
    rewrite Hm.
    rewrite !scan_run_miss by (apply scan_other; auto; discriminate).
    rewrite scan_time_no_T by (now apply digit_run_head).
    cbn [fst]. unfold parts_fit, fields_of. cbn. now rewrite Hfit'.
Qed.

Lemma FromString_units_in_order_witness :
  FromString "P5H" = Ok zeroDuration /\
  FromString "P1M2Y" = Ok (mkDuration 0 1 0 0 0 0 0).
Proof.
  assert (H1 : Strconv.digits_value "1" 0 <= Mach.maxInt)
    by (vm_compute; discriminate).
  assert (H5 : Strconv.digits_value "5" 0 <= Mach.maxInt)
    by (vm_compute; discriminate).
  split.
  - apply (proj1 (FromString_units_in_order "5" "5" eq_refl eq_refl H5)).
  - apply (proj2 (proj2 (proj2 (proj2
             (FromString_units_in_order "1" "2" eq_refl eq_refl H1))))).
Defined.

Lemma pad_run_ok (run : option string) :
  run_ok run = true -> run_ok (pad_run run) = true.
Proof.
  destruct run as [n |]; [| reflexivity]. cbn [pad_run run_ok].
  intros H. apply andb_true_iff in H as [_ H]. cbn. exact H.
Qed.

Lemma pad_run_value (run : option string) :
  run_value (pad_run run) = run_value run.
Proof. now destruct run. Qed.

(** X4.  Zeros in front of a digit run do not count: a word of the
    grammar whose runs all fit an [int] parses to the same Duration with
    a zero written in front of each of its runs. *)
Theorem FromString_leading_zeros (p : Parts) :
  parts_ok p = true -> parts_fit p = true ->
  FromString (render (pad_parts p)) = Ok (fields_of p) /\
  FromString (render p) = Ok (fields_of p).
Proof.
  intros Hok Hfit.
  assert (Hf : fields_of (pad_parts p) = fields_of p).
  { destruct p as [y mo w dy [[h mi s] |]]; unfold fields_of, pad_parts;
      cbn [yearRun monthRun weekRun dayRun timeParts time_run
           hourRun minuteRun secondRun];
      now rewrite !pad_run_value. }
  assert (Hok' : parts_ok (pad_parts p) = true).
  { destruct (parts_ok_runs p Hok) as (Hy & Hmo & Hw & Hd & Hh & Hmi & Hs).
    destruct p as [y mo w dy [[h mi s] |]]; unfold parts_ok, pad_parts;
      cbn [yearRun monthRun weekRun dayRun timeParts time_run time_ok
           hourRun minuteRun secondRun] in *;
      now rewrite !pad_run_ok by assumption. }
  split.
  - pose proof (FromString_render "" "" (pad_parts p) eq_refl Hok' eq_refl)
      as H.
    rewrite append_nil_r, Hf in H. cbn [append] in H. apply H.
    unfold parts_fit. now rewrite Hf.
  - pose proof (FromString_render "" "" p eq_refl Hok eq_refl Hfit) as H.
    now rewrite append_nil_r in H.
Qed.

Lemma FromString_leading_zeros_witness :
  FromString "P07YT030S" = Ok (mkDuration 7 0 0 0 0 0 30).
Proof.
  apply (proj1 (FromString_leading_zeros
                  (mkParts (Some "7") None None None
                           (Some (mkTimeParts None None (Some "30"))))
                  eq_refl eq_refl)).
Defined.

(* ================================================================== *)
(** ** Beyond the claims: the formatter and the round trip *)

Lemma has_char_app (c : ascii) (a b : string) :
  has_char c (a ++ b) = has_char c a || has_char c b.
Proof.
  induction a as [| x a IH]; cbn [append has_char]; [reflexivity |].
  now rewrite IH, orb_assoc.
Qed.

Lemma digits_no_T (s : string) :
  Strconv.all_digits s = true -> has_char "T" s = false.
Proof.
  induction s as [| c s IH]; cbn [Strconv.all_digits has_char];
    [reflexivity |].
  intros H. apply andb_true_iff in H as [Hc Hs]. rewrite (IH Hs).
  destruct (Ascii.eqb "T" c) eqn:E; [| reflexivity].
  apply Ascii.eqb_eq in E. subst c. discriminate Hc.
Qed.

Lemma Itoa_no_T (v : Z) : has_char "T" (Strconv.Itoa v) = false.
Proof.
  unfold Strconv.Itoa. destruct (v <? 0) eqn:E.
  - apply Z.ltb_lt in E. cbn [has_char].
    change (Ascii.eqb "T" "-") with false. cbn [orb].
    apply digits_no_T, fmt_unsigned_spec. lia.
  - apply Z.ltb_ge in E. apply digits_no_T, fmt_unsigned_spec. lia.
Qed.

Lemma unit_out_no_T (v : Z) (l : ascii) :
  Ascii.eqb "T" l = false ->
  has_char "T" (unit_out v (String l "")) = false.
Proof.
  intros Hl. unfold unit_out. destruct (v =? 0); [reflexivity |].
  rewrite has_char_app, Itoa_no_T. cbn [has_char orb]. now rewrite Hl.
Qed.

(** X5.  What [String] writes has a [T] in it exactly when
    [HasTimePart] holds, that is when one of hours, minutes, seconds is
    not zero: no stray [T] after a date alone, and none missing before a
    time. *)
Theorem Duration_String_T_iff_HasTimePart (d : Duration) :
  exists s, Duration_String d = Ok s /\
            has_char "T" s = HasTimePart d /\
            (HasTimePart d = false <->
             Hours d = 0 /\ Minutes d = 0 /\ Seconds d = 0).
Proof.
  exists (format_spec d). split; [apply Duration_String_format |]. split.
  - unfold format_spec, HasTimePart.
    change "Y" with (String "Y"%char ""). change "M" with (String "M"%char "").
    change "W" with (String "W"%char ""). change "D" with (String "D"%char "").
    change "H" with (String "H"%char ""). change "S" with (String "S"%char "").
    rewrite !has_char_app.
    rewrite !unit_out_no_T by reflexivity.
    cbn [has_char orb].
    change (Ascii.eqb "T" "P") with false. cbn [orb].
    destruct (negb (Hours d =? 0) || negb (Minutes d =? 0)
              || negb (Seconds d =? 0)); reflexivity.
  - unfold HasTimePart.
    destruct (Z.eqb_spec (Hours d) 0), (Z.eqb_spec (Minutes d) 0),
      (Z.eqb_spec (Seconds d) 0); cbn; split; intros; try discriminate;
      try tauto; repeat split; assumption.
Qed.

(** X6.  Printing then parsing gives every Duration back whose fields
    are non-negative values of [int], with any number of fields set:
    weeks next to years, months and days make no exception. *)
Theorem String_FromString_all_fields (d : Duration) :
  nonneg d -> int_fields d ->
  exists s, Duration_String d = Ok s /\ FromString s = Ok d.
Proof.
  intros Hnn Hint. exists (render (parts_of d)).
  now apply String_FromString.
Qed.

Lemma String_FromString_all_fields_witness :
  exists s, Duration_String (mkDuration 1 2 3 4 5 6 7) = Ok s /\
            FromString s = Ok (mkDuration 1 2 3 4 5 6 7).
Proof.
  apply (String_FromString_all_fields (mkDuration 1 2 3 4 5 6 7)).
  - unfold nonneg. cbn. lia.
  - unfold int_fields, Mach.in_int64, Mach.minInt64, Mach.maxInt64. cbn. lia.
Defined.

(** X7.  Parsing, printing and parsing again gives what parsing gave:
    whatever [FromString] returns prints as a string that parses to the
    same Duration. *)
Theorem FromString_String_FromString (s : string) (d : Duration) :
  FromString s = Ok d ->
  exists out, Duration_String d = Ok out /\ FromString out = Ok d.
Proof.
  intros H. destruct (FromString_Ok_fields s d H) as [Hnn Hint].
  exists (render (parts_of d)). now apply String_FromString.
Qed.

Lemma FromString_String_FromString_witness :
  exists out, Duration_String (mkDuration 0 0 0 0 0 90 0) = Ok out /\
              FromString out = Ok (mkDuration 0 0 0 0 0 90 0).
Proof.
  apply (FromString_String_FromString "see PT090M0S"
           (mkDuration 0 0 0 0 0 90 0)).
  reflexivity.
Defined.

(** X8.  Two Durations with non-negative [int] fields that print alike
    are the same Duration. *)
Theorem Duration_String_injective (a b : Duration) :
  nonneg a -> int_fields a -> nonneg b -> int_fields b ->
  Duration_String a = Duration_String b -> a = b.
Proof.
  intros Ha Ia Hb Ib E.
  destruct (String_FromString a Ha Ia) as [Sa Fa].
  destruct (String_FromString b Hb Ib) as [Sb Fb].
  rewrite Sa, Sb in E.
  assert (E' : render (parts_of a) = render (parts_of b)) by congruence.
  rewrite E' in Fa. congruence.
Qed.

Lemma Duration_String_injective_witness :
  Duration_String (mkDuration 0 1 0 0 0 0 0)
  <> Duration_String (mkDuration 0 0 0 0 0 1 0).
Proof.
  intros E.
  assert (H : mkDuration 0 1 0 0 0 0 0 = mkDuration 0 0 0 0 0 1 0).
  { apply Duration_String_injective; try exact E;
      unfold nonneg, int_fields, Mach.in_int64, Mach.minInt64, Mach.maxInt64;
      cbn; lia. }
  discriminate H.
Defined.

(** *** Printing negative fields *)

Lemma format_spec_time_out (d : Duration) :
  format_spec d =
  String "P" (unit_out (Years d) "Y" ++ unit_out (Months d) "M"
              ++ unit_out (Weeks d) "W" ++ unit_out (Days d) "D"
              ++ time_out d).
Proof.
  unfold format_spec, time_out, HasTimePart, unit_out.
  destruct (Hours d =? 0), (Minutes d =? 0), (Seconds d =? 0); reflexivity.
Qed.

Lemma unit_out_dash (v : Z) (l tail : string) :
  v < 0 -> dash_head (unit_out v l ++ tail).
Proof.
  intros Hv. unfold unit_out, Strconv.Itoa.
  assert ((v =? 0) = false) as -> by (apply Z.eqb_neq; lia).
  assert ((v <? 0) = true) as -> by (apply Z.ltb_lt; lia).
  reflexivity.
Qed.

Lemma dash_app (s tail : string) : dash_head s -> dash_head (s ++ tail).
Proof. destruct s; [contradiction | trivial]. Qed.

Lemma dash_scan (l : ascii) (s : string) : dash_head s -> scan l s = None.
Proof.
  destruct s as [| c s']; [contradiction |]. cbn. intros ->. reflexivity.
Qed.

Lemma dash_scan_run (l : ascii) (s : string) :
  dash_head s -> scan_run l s = (None, s).
Proof. intros H. apply scan_run_miss, dash_scan, H. Qed.

Lemma dash_scan_time (s : string) : dash_head s -> scan_time s = (None, s).
Proof.
  destruct s as [| c s']; [contradiction |]. cbn. intros ->. reflexivity.
Qed.

Lemma scan_skip_out (l l' : ascii) (v : Z) (tail : string) :
  Strconv.is_digit l = false -> Strconv.is_digit l' = false -> l <> l' ->
  scan l tail = None ->
  scan l (unit_out v (String l' "") ++ tail) = None.
Proof.
  intros Hl Hl' Hne Htail.
  destruct (Z.lt_ge_cases v 0) as [Hneg | Hpos].
  - apply dash_scan. now apply unit_out_dash.
  - rewrite unit_out_text. apply scan_skip_unit; auto. now apply run_of_ok.
Qed.

Lemma scan_run_out (l : ascii) (v : Z) (tail : string) :
  Strconv.is_digit l = false -> 0 <= v -> scan l tail = None ->
  scan_run l (unit_out v (String l "") ++ tail) = (run_of v, tail).
Proof.
  intros Hl Hpos Htail.
  rewrite unit_out_text. apply scan_run_unit; auto. now apply run_of_ok.
Qed.

Lemma scan_time_out_head (l : ascii) (d : Duration) :
  scan l (time_out d) = None.
Proof.
  unfold time_out. destruct (HasTimePart d); [| reflexivity].
  apply scan_no_digit. reflexivity.
Qed.

Ltac out_tail :=
  repeat first
    [ assumption
    | apply scan_time_out_head
    | reflexivity
    | apply scan_skip_out; [reflexivity | reflexivity | discriminate |] ].

(** Split on the sign of a field, recording the test. *)
Ltac by_sign v :=
  let H := fresh "Hsign" in
  let E := fresh "Esign" in
  destruct (Z.leb_spec 0 v) as [H | H];
  [ assert (E : (0 <=? v) = true) by (apply Z.leb_le; lia)
  | assert (E : (0 <=? v) = false) by (apply Z.leb_gt; lia) ];
  rewrite ?E; cbn [andb].

Ltac stuck :=
  rewrite ?dash_scan_run, ?dash_scan_time
    by (repeat first [ apply unit_out_dash; assumption | apply dash_app ]).

Lemma scan_time_out (d : Duration) :
  fst (scan_time (time_out d)) =
  if HasTimePart d
  then Some (mkTimeParts
               (if 0 <=? Hours d then run_of (Hours d) else None)
               (if (0 <=? Hours d) && (0 <=? Minutes d)
                then run_of (Minutes d) else None)
               (if (0 <=? Hours d) && (0 <=? Minutes d) && (0 <=? Seconds d)
                then run_of (Seconds d) else None))
  else None.
Proof.
  unfold time_out. destruct (HasTimePart d); [| reflexivity].
  cbn [append]. unfold scan_time.
  change (Ascii.eqb "T" "T") with true. cbv iota.
  change "H" with (String "H"%char ""). change "M" with (String "M"%char "").
  change "S" with (String "S"%char "").
  rewrite <- (append_nil_r (unit_out (Seconds d) _)).
  by_sign (Hours d); [| stuck; reflexivity].
  rewrite (scan_run_out "H") by out_tail.
  by_sign (Minutes d); [| stuck; reflexivity].
  rewrite (scan_run_out "M") by out_tail.
  by_sign (Seconds d); [| stuck; reflexivity].
  rewrite (scan_run_out "S") by out_tail.
  reflexivity.
Qed.

(** What the scan reads in the text that [String] writes after [P]. *)
Lemma scan_parts_out (d : Duration) :
  fst (scan_parts (unit_out (Years d) "Y" ++ unit_out (Months d) "M"
                   ++ unit_out (Weeks d) "W" ++ unit_out (Days d) "D"
                   ++ time_out d))
  = parts_kept d.
Proof.
  unfold scan_parts, parts_kept. cbv zeta.
  change "Y" with (String "Y"%char ""). change "M" with (String "M"%char "").
  change "W" with (String "W"%char ""). change "D" with (String "D"%char "").
  by_sign (Years d); [| stuck; reflexivity].
  rewrite (scan_run_out "Y") by out_tail.
  by_sign (Months d); [| stuck; reflexivity].
  rewrite (scan_run_out "M") by out_tail.
  by_sign (Weeks d); [| stuck; reflexivity].
  rewrite (scan_run_out "W") by out_tail.
  by_sign (Days d); [| stuck; reflexivity].
  rewrite (scan_run_out "D") by out_tail.
  pose proof (scan_time_out d) as Ht.
  destruct (scan_time (time_out d)) as [t s5]. cbn [fst] in *.
  rewrite Ht. now destruct (HasTimePart d).
Qed.

Lemma run_value_gated (g : bool) (v : Z) :
  (g = true -> 0 <= v) ->
  run_value (if g then run_of v else None) = if g then v else 0.
Proof.
  destruct g; [| reflexivity]. intros H. apply run_of_value. now apply H.
Qed.

Lemma run_ok_gated (g : bool) (v : Z) :
  (g = true -> 0 <= v) ->
  run_ok (if g then run_of v else None) = true.
Proof.
  destruct g; [| reflexivity]. intros H. apply run_of_ok. now apply H.
Qed.

Ltac gate :=
  let H := fresh in
  intros H; repeat (apply andb_true_iff in H as [H ?]);
  repeat match goal with
         | G : (0 <=? _) = true |- _ => apply Z.leb_le in G
         end; assumption.

Lemma parts_kept_fields (d : Duration) :
  fields_of (parts_kept d) = keep_nonneg d.
Proof.
  unfold fields_of, parts_kept, keep_nonneg. cbv zeta.
  cbn [yearRun monthRun weekRun dayRun timeParts].
  rewrite !run_value_gated by gate.
  f_equal.
  all: unfold HasTimePart;
    destruct (0 <=? Years d), (0 <=? Months d), (0 <=? Weeks d),
      (0 <=? Days d); cbn [andb time_run run_value]; try reflexivity.
  all: destruct (Z.eqb_spec (Hours d) 0) as [Eh | Eh],
         (Z.eqb_spec (Minutes d) 0) as [Em | Em],
         (Z.eqb_spec (Seconds d) 0) as [Es | Es];
    cbn [negb orb time_run hourRun minuteRun secondRun run_value];
    rewrite ?Eh, ?Em, ?Es; cbn [Z.leb Z.compare andb];
    rewrite ?run_value_gated by gate; try reflexivity.
  all: repeat match goal with
              | |- context [if ?b then _ else _] => destruct b
              end; reflexivity.
Qed.

(** X9.  [String] writes a negative field with its sign, and the
    pattern reads no sign: for every Duration with [int] fields, parsing
    what [String] wrote succeeds and returns the fields up to the first
    negative one (in the order years, months, weeks, days, hours,
    minutes, seconds), with zero for that field and every later one.  A
    Duration without a negative field comes back unchanged. *)
Theorem String_FromString_negative (d : Duration) :
  int_fields d ->
  (exists s, Duration_String d = Ok s /\ FromString s = Ok (keep_nonneg d)) /\
  (nonneg d -> keep_nonneg d = d).
Proof.
  intros Hint. split.
  - exists (format_spec d). split; [apply Duration_String_format |].
    rewrite format_spec_time_out.
    pose proof (FromString_scan "" (unit_out (Years d) "Y"
      ++ unit_out (Months d) "M" ++ unit_out (Weeks d) "W"
      ++ unit_out (Days d) "D" ++ time_out d) eq_refl) as H.
    cbn [append] in H. rewrite H. clear H. cbv zeta.
    rewrite scan_parts_out.
    assert (Hfit : parts_fit (parts_kept d) = true).
    { unfold parts_fit. rewrite parts_kept_fields. cbv zeta.
      destruct Hint as (Hy & Hmo & Hw & Hd & Hh & Hmi & Hs).
      unfold Mach.in_int64, Mach.minInt64, Mach.maxInt, Mach.maxInt64 in *.
      unfold keep_nonneg. cbv zeta.
      cbn [Years Months Weeks Days Hours Minutes Seconds].
      repeat (apply andb_true_iff; split); apply Z.leb_le;
        match goal with |- (if ?g then _ else _) <= _ => destruct g end; lia. }
    now rewrite Hfit, parts_kept_fields.
  - intros (Hy & Hmo & Hw & Hd & Hh & Hmi & Hs).
    unfold keep_nonneg. cbv zeta.
    apply Z.leb_le in Hy, Hmo, Hw, Hd, Hh, Hmi, Hs.
    rewrite Hy, Hmo, Hw, Hd, Hh, Hmi, Hs. cbn [andb]. now destruct d.
Qed.

Lemma String_FromString_negative_witness :
  exists s, Duration_String (mkDuration 1 2 (-3) 4 5 0 6) = Ok s /\
            FromString s = Ok (mkDuration 1 2 0 0 0 0 0).
Proof.
  assert (Hint : int_fields (mkDuration 1 2 (-3) 4 5 0 6))
    by (unfold int_fields, Mach.in_int64, Mach.minInt64, Mach.maxInt64;
        cbn; lia).
  exact (proj1 (String_FromString_negative _ Hint)).
Defined.

(* ================================================================== *)
(** ** Beyond the claims: the resolvers *)

(** Where nothing overflows and the span fits, [ToDuration] is the exact
    time to the instant of the plain calendar arithmetic. *)
Lemma ToDuration_elapsed (d : Duration) (from : GoTime.Time) :
  nonneg d ->
  7 * Weeks d <= Mach.maxInt ->
  Hours d * GoTime.Hour <= Mach.maxInt64 ->
  Minutes d * GoTime.Minute <= Mach.maxInt64 ->
  Seconds d * GoTime.Second <= Mach.maxInt64 ->
  Mach.in_int64 (GoTime.elapsed (stepwise_target d from) from) ->
  ToDuration d from = GoTime.elapsed (stepwise_target d from) from.
Proof.
  intros Hnn H7 HH HM HS Hel.
  rewrite ToDuration_saturate, targetTime_stepwise by assumption.
  now apply saturate_id.
Qed.

Lemma AddDate_with_mono (t : GoTime.Time) (r : option Z) (y m d : Z) :
  GoTime.AddDate (with_mono t r) y m d = GoTime.AddDate t y m d.
Proof. reflexivity. Qed.

Lemma targetTime_with_mono
      (d : Duration) (from : GoTime.Time) (r : option Z) :
  targetTime d (with_mono from r) = targetTime d from.
Proof.
  unfold targetTime. cbv zeta. now rewrite AddDate_with_mono.
Qed.

Lemma elapsed_with_mono (t u : GoTime.Time) (r : option Z) :
  GoTime.elapsed t (with_mono u r) = GoTime.elapsed t u.
Proof. reflexivity. Qed.

(** X10.  [ToDuration] does not look at the monotonic clock reading of
    its anchor: an instant from [time.Now()] and the same instant
    stripped of its reading give the same span. *)
Theorem ToDuration_ignores_monotonic
        (d : Duration) (from : GoTime.Time) (r : option Z) :
  ToDuration d (with_mono from r) = ToDuration d from.
Proof.
  rewrite !ToDuration_saturate.
  now rewrite targetTime_with_mono, elapsed_with_mono.
Qed.

Ltac time_units :=
  unfold estimated_exact, GoTime.Hour, GoTime.Minute, GoTime.Second,
    GoTime.Millisecond, GoTime.Microsecond, GoTime.Nanosecond,
    GoTime.secondsPerDay, Mach.in_int64, Mach.minInt64, Mach.maxInt,
    Mach.maxInt64 in *.

(** Without years and months, in a location with a fixed offset, the
    instant aimed at is as far from the anchor as the fixed table says. *)
Lemma elapsed_days_only (d : Duration) (from : GoTime.Time) :
  Years d = 0 -> Months d = 0 ->
  fixed_offset (GoTime.loc from) -> time_ok_ns from ->
  GoTime.elapsed (spec_target d from) from = estimated_exact d.
Proof.
  intros Hy Hmo Hl Hns. unfold spec_target. cbv zeta.
  rewrite !elapsed_Add. rewrite Hy, Hmo.
  rewrite (AddDate_days_fixed from 0) by assumption.
  rewrite AddDate_days_fixed by (cbn; assumption).
  unfold GoTime.elapsed. cbn [GoTime.unixSec GoTime.nsec].
  time_units. rewrite Hy, Hmo. lia.
Qed.

(** X11.  The two resolvers agree where the calendar has no say: for a
    Duration without years and months, an anchor in a location with a
    fixed offset, and a span that fits an [int64], [ToDuration] returns
    what [ToEstimatedDuration] returns, whatever the anchor. *)
Theorem ToDuration_eq_estimated (d : Duration) (from : GoTime.Time) :
  nonneg d -> Years d = 0 -> Months d = 0 ->
  fixed_offset (GoTime.loc from) -> time_ok_ns from ->
  Mach.in_int64 (estimated_exact d) ->
  ToDuration d from = ToEstimatedDuration d.
Proof.
  intros Hnn Hy Hmo Hl Hns Hfit.
  rewrite (ToEstimatedDuration_exact d Hfit).
  pose proof (elapsed_days_only d from Hy Hmo Hl Hns) as He.
  rewrite <- (stepwise_spec_target d from Hl) in He.
  destruct Hnn as (Hy0 & Hmo0 & Hw & Hd & Hh & Hmi & Hs).
  assert (Hb : 7 * Weeks d <= Mach.maxInt /\
               Hours d * GoTime.Hour <= Mach.maxInt64 /\
               Minutes d * GoTime.Minute <= Mach.maxInt64 /\
               Seconds d * GoTime.Second <= Mach.maxInt64).
  { revert Hfit. time_units. rewrite Hy, Hmo. lia. }
  destruct Hb as (B7 & BH & BM & BS).
  rewrite <- He.
  apply ToDuration_elapsed; try assumption.
  - repeat split; lia.
  - now rewrite He.
Qed.

Lemma ToDuration_eq_estimated_witness :
  ToDuration (mkDuration 0 0 2 3 4 5 6)
             (GoTime.mkTime 1700000000 123456789 (Some 42)
                            (GoTime.FixedZone 19800))
  = ToEstimatedDuration (mkDuration 0 0 2 3 4 5 6).
Proof.
  apply ToDuration_eq_estimated.
  - unfold nonneg. cbn. lia.
  - reflexivity.
  - reflexivity.
  - exists 19800. intros sec. reflexivity.
  - unfold time_ok_ns. cbn. lia.
  - unfold Mach.in_int64. vm_compute. split; discriminate.
Defined.

(** X12.  Within the range of [int64], [ToEstimatedDuration] grows with
    every field: of two Durations with non-negative fields, the one with
    the larger fields has the larger span, no span is negative, and the
    span is zero for the zero Duration alone. *)
Theorem ToEstimatedDuration_monotone (a b : Duration) :
  nonneg a -> le_fields a b -> Mach.in_int64 (estimated_exact b) ->
  0 <= ToEstimatedDuration a <= ToEstimatedDuration b /\
  (ToEstimatedDuration a = 0 <-> a = zeroDuration).
Proof.
  intros Ha Hab Hb.
  destruct Ha as (Hy & Hmo & Hw & Hd & Hh & Hmi & Hs).
  destruct Hab as (Ly & Lmo & Lw & Ld & Lh & Lmi & Ls).
  assert (Hle : 0 <= estimated_exact a <= estimated_exact b)
    by (revert Hb; time_units; lia).
  assert (Hfa : Mach.in_int64 (estimated_exact a))
    by (revert Hb Hle; unfold Mach.in_int64, Mach.minInt64, Mach.maxInt64;
        lia).
  rewrite (ToEstimatedDuration_exact a Hfa), (ToEstimatedDuration_exact b Hb).
  split; [exact Hle |].
  split.
  - intros E. destruct a as [y mo w dy h mi s].
    cbn [Years Months Weeks Days Hours Minutes Seconds] in *.
    revert E. time_units.
    cbn [Years Months Weeks Days Hours Minutes Seconds]. intros E.
    unfold zeroDuration. f_equal; lia.
  - intros ->. reflexivity.
Qed.

Lemma ToEstimatedDuration_monotone_witness :
  0 <= ToEstimatedDuration (mkDuration 1 0 0 0 0 0 0)
    <= ToEstimatedDuration (mkDuration 1 0 0 0 0 0 1).
Proof.
  apply (ToEstimatedDuration_monotone (mkDuration 1 0 0 0 0 0 0)
                                      (mkDuration 1 0 0 0 0 0 1)).
  - unfold nonneg. cbn. lia.
  - unfold le_fields. cbn. lia.
  - unfold Mach.in_int64. vm_compute. split; discriminate.
Defined.

(** *** The calendar never goes back *)

Lemma leapCount_step (a : Z) : leapCount a <= leapCount (a + 1).
Proof.
  unfold leapCount. Z.div_mod_to_equations. lia.
Qed.

Lemma leapCount_mono (a b : Z) : a <= b -> leapCount a <= leapCount b.
Proof.
  intros H. replace b with (a + Z.of_nat (Z.to_nat (b - a))) by lia.
  induction (Z.to_nat (b - a)) as [| n IH].
  - rewrite Z.add_0_r. lia.
  - rewrite Nat2Z.inj_succ.
    replace (a + Z.succ (Z.of_nat n)) with (a + Z.of_nat n + 1) by lia.
    pose proof (leapCount_step (a + Z.of_nat n)). lia.
Qed.

Lemma daysSinceEpoch_mono (y1 y2 : Z) :
  y1 <= y2 ->
  365 * (y2 - y1) <= GoTime.daysSinceEpoch y2 - GoTime.daysSinceEpoch y1.
Proof.
  intros H. unfold GoTime.daysSinceEpoch. cbv zeta.
  pose proof (leapCount_mono (y1 - 1) (y2 - 1) ltac:(lia)) as Hl.
  unfold leapCount in Hl. lia.
Qed.

Ltac month_cases m H :=
  let E := fresh "E" in
  assert (E : m = 1 \/ m = 2 \/ m = 3 \/ m = 4 \/ m = 5 \/ m = 6 \/
              m = 7 \/ m = 8 \/ m = 9 \/ m = 10 \/ m = 11 \/ m = 12) by lia;
  clear H;
  repeat (destruct E as [E | E]; [subst m |]); [.. | subst m].

Ltac month_table :=
  repeat match goal with
         | |- context [GoTime.daysBeforeMonth ?k] =>
             let v := eval vm_compute in (GoTime.daysBeforeMonth k) in
             change (GoTime.daysBeforeMonth k) with v
         end;
  repeat match goal with
         | |- context [3 <=? ?m] =>
             let v := eval vm_compute in (3 <=? m) in
             change (3 <=? m) with v
         end;
  cbn [andb]; cbv iota.

(** Within a year the days before a month grow with the month, and stay
    below the length of a year. *)
Lemma daysOfCivil_month (y m1 m2 dd : Z) :
  1 <= m1 <= 12 -> 1 <= m2 <= 12 -> m1 <= m2 ->
  daysOfCivil y m1 dd <= daysOfCivil y m2 dd /\
  GoTime.daysSinceEpoch y + (dd - 1) <= daysOfCivil y m1 dd
  <= GoTime.daysSinceEpoch y + (dd - 1) + 335.
Proof.
  intros H1 H2. unfold daysOfCivil. cbv zeta.
  generalize (GoTime.daysSinceEpoch y). intros e.
  destruct (GoTime.isLeap y);
    month_cases m1 H1; month_cases m2 H2; month_table; lia.
Qed.

(** A later month of the calendar starts on a later day. *)
Lemma daysOfCivil_mono (y1 m1 y2 m2 dd : Z) :
  1 <= m1 <= 12 -> 1 <= m2 <= 12 ->
  12 * y1 + m1 <= 12 * y2 + m2 ->
  daysOfCivil y1 m1 dd <= daysOfCivil y2 m2 dd.
Proof.
  intros H1 H2 Hle.
  destruct (Z.eq_dec y1 y2) as [-> | Hne].
  - apply daysOfCivil_month; lia.
  - pose proof (daysSinceEpoch_mono y1 y2 ltac:(lia)) as Hd.
    pose proof (daysOfCivil_month y1 m1 m1 dd H1 H1 ltac:(lia)) as [_ B1].
    pose proof (daysOfCivil_month y2 m2 m2 dd H2 H2 ltac:(lia)) as [_ B2].
    lia.
Qed.

(** [time.Date] in a location with a fixed offset, the month as it
    comes. *)
Lemma Date_fixed_months (o y mo dd h mi s ns : Z) (l : GoTime.Location) :
  (forall sec, GoTime.lookup l sec = (o, GoTime.alpha, GoTime.omega)) ->
  0 <= h < 24 -> 0 <= mi < 60 -> 0 <= s < 60 -> 0 <= ns < 1000000000 ->
  GoTime.Date y mo dd h mi s ns l =
  GoTime.mkTime
    (daysOfCivil (y + (mo - 1) / 12) ((mo - 1) mod 12 + 1) dd
     * GoTime.secondsPerDay + (h * 3600 + mi * 60 + s) - o)
    ns None l.
Proof.
  intros Hl Hh Hmi Hs Hns.
  unfold GoTime.Date, GoTime.norm, daysOfCivil.
  rewrite (Z.div_small ns), (Z.mod_small ns) by lia.
  rewrite !Z.add_0_r.
  rewrite (Z.div_small s), (Z.mod_small s) by lia.
  rewrite !Z.add_0_r.
  rewrite (Z.div_small mi), (Z.mod_small mi) by lia.
  rewrite !Z.add_0_r.
  rewrite (Z.div_small h), (Z.mod_small h) by lia.
  rewrite !Z.add_0_r.
  cbv beta iota zeta.
  replace ((mo - 1) mod 12 + 1 - 1) with ((mo - 1) mod 12) by lia.
  rewrite !Hl.
  destruct (o =? 0) eqn:Eo.
  - apply Z.eqb_eq in Eo. subst o. f_equal. lia.
  - now destruct (_ || _).
Qed.

(** Adding years and months that are not negative does not move an
    instant back, where the offset is fixed. *)
Lemma AddDate_months_forward (t : GoTime.Time) (Y M : Z) :
  fixed_offset (GoTime.loc t) -> 0 <= GoTime.nsec t < 1000000000 ->
  0 <= Y -> 0 <= M ->
  GoTime.unixSec t <= GoTime.unixSec (GoTime.AddDate t Y M 0) /\
  GoTime.nsec (GoTime.AddDate t Y M 0) = GoTime.nsec t.
Proof.
  intros [o Hl] Hns HY HM.
  unfold GoTime.AddDate, GoTime.DateOf, GoTime.Clock, GoTime.localSec.
  rewrite Hl.
  set (L := GoTime.unixSec t + o).
  pose proof (civil_roundtrip (L / GoTime.secondsPerDay)) as Hc.
  destruct (GoTime.civil (L / GoTime.secondsPerDay)) as [[y mo] dd].
  destruct Hc as [Hmo Hdays].
  destruct (clock_fields L) as (Hh & Hmi & Hs & Hsum).
  cbv zeta in Hh, Hmi, Hs, Hsum.
  rewrite (Date_fixed_months o) by assumption.
  cbn [GoTime.unixSec GoTime.nsec]. split; [| reflexivity].
  rewrite Z.add_0_r.
  pose proof (Z.div_mod (mo + M - 1) 12 ltac:(lia)) as Hq.
  pose proof (Z.mod_pos_bound (mo + M - 1) 12 ltac:(lia)) as Hr.
  pose proof (daysOfCivil_mono y mo (y + Y + (mo + M - 1) / 12)
                ((mo + M - 1) mod 12 + 1) dd Hmo ltac:(lia) ltac:(lia))
    as Hmono.
  unfold GoTime.secondsPerDay in *.
  pose proof (Z.div_mod L 86400 ltac:(lia)). subst L. lia.
Qed.




(** *** The length of years and months *)

Lemma leapCount_year (y : Z) :
  leapCount y - leapCount (y - 1) = if GoTime.isLeap y then 1 else 0.
Proof.
  unfold leapCount, GoTime.isLeap.
  destruct (Z.eqb_spec (y mod 4) 0), (Z.eqb_spec (y mod 100) 0),
    (Z.eqb_spec (y mod 400) 0); cbn [andb orb negb];
    Z.div_mod_to_equations; lia.
Qed.

Lemma daysSinceEpoch_succ (y : Z) :
  GoTime.daysSinceEpoch (y + 1) =
  GoTime.daysSinceEpoch y + 365 + (if GoTime.isLeap y then 1 else 0).
Proof.
  pose proof (leapCount_year y) as H.
  unfold GoTime.daysSinceEpoch, leapCount in *. cbv zeta.
  replace (y + 1 - 1) with y by lia. lia.
Qed.

(** The same date a year later is 365 or 366 days on. *)
Lemma daysOfCivil_next_year (y m dd : Z) :
  1 <= m <= 12 ->
  365 <= daysOfCivil (y + 1) m dd - daysOfCivil y m dd <= 366.
Proof.
  intros Hm. unfold daysOfCivil. cbv zeta.
  rewrite daysSinceEpoch_succ.
  generalize (GoTime.daysSinceEpoch y). intros e.
  destruct (GoTime.isLeap y), (GoTime.isLeap (y + 1)), (3 <=? m);
    cbn [andb]; lia.
Qed.

Lemma daysOfCivil_years (y m dd : Z) (n : nat) :
  1 <= m <= 12 ->
  365 * Z.of_nat n
  <= daysOfCivil (y + Z.of_nat n) m dd - daysOfCivil y m dd
  <= 366 * Z.of_nat n.
Proof.
  intros Hm. induction n as [| n IH].
  - rewrite Z.add_0_r. lia.
  - rewrite Nat2Z.inj_succ.
    replace (y + Z.succ (Z.of_nat n)) with (y + Z.of_nat n + 1) by lia.
    pose proof (daysOfCivil_next_year (y + Z.of_nat n) m dd Hm). lia.
Qed.

(** The same day of the next month is 28 to 31 days on. *)
Lemma daysOfCivil_next_month (y m dd : Z) :
  1 <= m <= 12 ->
  28 <= daysOfCivil (if m =? 12 then y + 1 else y)
                    (if m =? 12 then 1 else m + 1) dd
        - daysOfCivil y m dd <= 31.
Proof.
  intros Hm.
  pose proof (daysSinceEpoch_succ y) as Hs.
  month_cases m Hm;
    repeat match goal with
           | |- context [?a =? 12] =>
               let v := eval vm_compute in (a =? 12) in
               change (a =? 12) with v
           end; cbv iota; unfold daysOfCivil; cbv zeta;
    destruct (GoTime.isLeap (y + 1)); destruct (GoTime.isLeap y);
    cbv iota in Hs; revert Hs;
    generalize (GoTime.daysSinceEpoch (y + 1));
    generalize (GoTime.daysSinceEpoch y); intros e e' Hs;
    month_table; lia.
Qed.

Lemma month_index_succ (k : Z) :
  0 <= k ->
  (k + 1) / 12 = (if k mod 12 + 1 =? 12 then k / 12 + 1 else k / 12) /\
  (k + 1) mod 12 + 1 = (if k mod 12 + 1 =? 12 then 1 else k mod 12 + 1 + 1).
Proof.
  intros Hk. destruct (Z.eqb_spec (k mod 12 + 1) 12);
    Z.div_mod_to_equations; lia.
Qed.

Lemma daysOfCivil_months (y m dd : Z) (n : nat) :
  1 <= m <= 12 ->
  28 * Z.of_nat n
  <= daysOfCivil (y + (m + Z.of_nat n - 1) / 12)
                 ((m + Z.of_nat n - 1) mod 12 + 1) dd
     - daysOfCivil y m dd
  <= 31 * Z.of_nat n.
Proof.
  intros Hm. induction n as [| n IH].
  - rewrite Z.add_0_r.
    rewrite (Z.div_small (m - 1)), (Z.mod_small (m - 1)) by lia.
    replace (y + 0) with y by lia. replace (m - 1 + 1) with m by lia. lia.
  - rewrite Nat2Z.inj_succ.
    replace (m + Z.succ (Z.of_nat n) - 1) with (m + Z.of_nat n - 1 + 1) by lia.
    set (k := m + Z.of_nat n - 1) in *.
    destruct (month_index_succ k ltac:(lia)) as [Hq Hr].
    rewrite Hq, Hr.
    pose proof (Z.mod_pos_bound k 12 ltac:(lia)) as Hb.
    pose proof (daysOfCivil_next_month (y + k / 12) (k mod 12 + 1) dd
                  ltac:(lia)) as Hn.
    destruct (k mod 12 + 1 =? 12);
      replace (y + (k / 12 + 1)) with (y + k / 12 + 1) by lia; lia.
Qed.

(** Adding years and months moves an instant forward by 365 to 366
    days a year and 28 to 31 days a month, where the offset is fixed. *)
Lemma AddDate_months_bounds (t : GoTime.Time) (Y M : Z) :
  fixed_offset (GoTime.loc t) -> 0 <= GoTime.nsec t < 1000000000 ->
  0 <= Y -> 0 <= M ->
  (365 * Y + 28 * M) * GoTime.secondsPerDay
  <= GoTime.unixSec (GoTime.AddDate t Y M 0) - GoTime.unixSec t
  <= (366 * Y + 31 * M) * GoTime.secondsPerDay.
Proof.
  intros [o Hl] Hns HY HM.
  unfold GoTime.AddDate, GoTime.DateOf, GoTime.Clock, GoTime.localSec.
  rewrite Hl.
  set (L := GoTime.unixSec t + o).
  pose proof (civil_roundtrip (L / GoTime.secondsPerDay)) as Hc.
  destruct (GoTime.civil (L / GoTime.secondsPerDay)) as [[y mo] dd].
  destruct Hc as [Hmo Hdays].
  destruct (clock_fields L) as (Hh & Hmi & Hs & Hsum).
  cbv zeta in Hh, Hmi, Hs, Hsum.
  rewrite (Date_fixed_months o) by assumption.
  cbn [GoTime.unixSec]. rewrite Z.add_0_r.
  pose proof (daysOfCivil_years y mo dd (Z.to_nat Y) Hmo) as Hyears.
  pose proof (daysOfCivil_months (y + Y) mo dd (Z.to_nat M) Hmo) as Hmonths.
  rewrite !Z2Nat.id in Hyears, Hmonths by lia.
  unfold GoTime.secondsPerDay in *.
  pose proof (Z.div_mod L 86400 ltac:(lia)). subst L. lia.
Qed.

(** X14.  How far the two resolvers can be apart: for a Duration with
    non-negative fields and an anchor in a location with a fixed offset,
    and as long as the bounds fit an [int64], [ToDuration] is at most two
    days per month below [ToEstimatedDuration] and at most one day per
    year and per month above it, for every anchor. *)
Theorem ToDuration_near_estimate (d : Duration) (from : GoTime.Time) :
  nonneg d ->
  fixed_offset (GoTime.loc from) -> time_ok_ns from ->
  Mach.in_int64 (estimated_exact d
                 + (Years d + Months d) * (24 * GoTime.Hour)) ->
  ToEstimatedDuration d - 2 * Months d * (24 * GoTime.Hour)
  <= ToDuration d from
  <= ToEstimatedDuration d + (Years d + Months d) * (24 * GoTime.Hour).
Proof.
  intros Hnn Hl Hns Hfit.
  pose proof Hnn as (Hy & Hmo & Hw & Hd & Hh & Hmi & Hs).
  pose proof (AddDate_months_bounds from (Years d) (Months d) Hl Hns Hy Hmo)
    as Hb.
  destruct (AddDate_months_forward from (Years d) (Months d) Hl Hns Hy Hmo)
    as [_ Hsame].
  destruct (AddDate_shape from (Years d) (Months d) 0) as (_ & Hloc & Hns1).
  assert (He : GoTime.elapsed (stepwise_target d from) from
               = (GoTime.unixSec (GoTime.AddDate from (Years d) (Months d) 0)
                  - GoTime.unixSec from
                  + (7 * Weeks d + Days d) * GoTime.secondsPerDay)
                 * 1000000000
                 + Hours d * GoTime.Hour + Minutes d * GoTime.Minute
                 + Seconds d * GoTime.Second).
  { rewrite stepwise_spec_target by assumption.
    unfold spec_target. cbv zeta. rewrite !elapsed_Add.
    rewrite AddDate_days_fixed by (rewrite ?Hloc; assumption).
    unfold GoTime.elapsed. cbn [GoTime.unixSec GoTime.nsec].
    rewrite Hsame. lia. }
  assert (Hest : Mach.in_int64 (estimated_exact d))
    by (revert Hfit; time_units; lia).
  rewrite (ToEstimatedDuration_exact d Hest).
  assert (Hrange :
    estimated_exact d - 2 * Months d * (24 * GoTime.Hour)
    <= GoTime.elapsed (stepwise_target d from) from
    <= estimated_exact d + (Years d + Months d) * (24 * GoTime.Hour)).
  { rewrite He. revert Hb. time_units. lia. }
  rewrite ToDuration_elapsed; try assumption.
  - revert Hfit. time_units. lia.
  - revert Hfit. time_units. lia.
  - revert Hfit. time_units. lia.
  - revert Hfit. time_units. lia.
  - revert Hfit Hrange Hb. rewrite He. time_units. lia.
Qed.

Lemma ToDuration_near_estimate_witness :
  ToEstimatedDuration (mkDuration 1 2 0 0 0 0 0) - 2 * 2 * (24 * GoTime.Hour)
  <= ToDuration (mkDuration 1 2 0 0 0 0 0)
                (GoTime.Date 2023 12 31 0 0 0 0 GoTime.UTC)
  <= ToEstimatedDuration (mkDuration 1 2 0 0 0 0 0)
     + (1 + 2) * (24 * GoTime.Hour).
Proof.
  apply (ToDuration_near_estimate (mkDuration 1 2 0 0 0 0 0)).
  - unfold nonneg. cbn. lia.
  - exists 0. intros sec. reflexivity.
  - unfold time_ok_ns. vm_compute. split; [discriminate | reflexivity].
  - unfold Mach.in_int64. vm_compute. split; discriminate.
Defined.
